(** * The alternating fallback geocoder of [import-long-lat.py]

    A shallow embedding of the class [MultiAPIGeocoder]: its constructor,
    the two request methods [geocode_postcodes_io] and [geocode_nominatim],
    and the public method [geocode_postcode]; and of the loop of
    [process_postcodes] that calls it once per row.

    The object's dictionaries are finite maps keyed by the integer index of
    the service (0 is postcodes.io, 1 is Nominatim).  Methods run in a small
    monad that threads the object, may raise [KeyError], and records the
    requests sent and the pauses taken, in the order they happen. *)

From Stdlib Require Import ZArith PrimFloat.
From stdpp Require Import base gmap strings list.

Set Warnings "-inexact-float".
Local Open Scope Z_scope.

(** ** Data *)

(** A coordinate is the pair of floats the request methods return. *)
Definition coords : Type := float * float.

(** What one HTTP exchange can bring back, seen from the body of a request
    method.  The four cases are the four ways control leaves the [try]
    block:
    - [Raises]: [session.get], [raise_for_status], [response.json], the
      test on [data] or the lookup [data['result']] raises, before any
      counter is touched;
    - [NoResult]: the body decodes but reports no match ([data] is falsy,
      or [status] is not 200): the method runs [return None] inside [try];
    - [Garbled]: a match is reported, the counter is reset, and then the
      conversion [float(...)] of the payload raises;
    - [Found lat lon]: a match is reported and converts to two floats. *)
Inductive response : Type :=
| Raises
| NoResult
| Garbled
| Found (lat lon : float).

(** The services: the answer each index would give for a postcode during
    one call of [geocode_postcode]. *)
Definition network : Type := Z → string → response.

(** Observable actions: [session.get] to a service, and [time.sleep]. *)
Inductive event : Type :=
| Get (api : Z) (postcode : string)
| Sleep (seconds : float).

Inductive exn : Type :=
| KeyError (key : Z).

(** The fields of [self] that the methods read and write. *)
Record geocoder : Type := Geocoder {
  current_api : Z;
  request_counts : gmap Z Z;
  failure_counts : gmap Z Z;
  api_disabled : gmap Z bool
}.

(** ** The method monad *)

Definition py (A : Type) : Type :=
  network → geocoder → exn + (A * geocoder * list event).

Definition ret {A} (a : A) : py A := λ _ self, inr (a, self, []).

Definition bind {A B} (m : py A) (k : A → py B) : py B :=
  λ net self,
    match m net self with
    | inl e => inl e
    | inr (a, self1, evs1) =>
        match k a net self1 with
        | inl e => inl e
        | inr (b, self2, evs2) => inr (b, self2, evs1 ++ evs2)
        end
    end.

Declare Scope py_scope.
Delimit Scope py_scope with py.
Notation "x <- m ;; k" := (bind m (λ x, k))
  (at level 100, m at next level, right associativity) : py_scope.
Notation "m ;; k" := (bind m (λ _, k))
  (at level 100, right associativity) : py_scope.
Local Open Scope py_scope.

Definition emit (e : event) : py unit := λ _ self, inr (tt, self, [e]).

(** [d[k]] as an expression. *)
Definition getitem {V} (d : geocoder → gmap Z V) (k : Z) : py V :=
  λ _ self,
    match d self !! k with
    | Some v => inr (v, self, [])
    | None => inl (KeyError k)
    end.

Definition modify (f : geocoder → geocoder) : py unit :=
  λ _ self, inr (tt, f self, []).

(** The four assignments [self.request_counts[k] = v],
    [self.failure_counts[k] = v], [self.api_disabled[k] = v] and
    [self.current_api = v], first as functions on the object. *)
Definition put_request_count (k v : Z) (self : geocoder) : geocoder :=
  Geocoder (current_api self) (<[k:=v]> (request_counts self))
           (failure_counts self) (api_disabled self).

Definition put_failure_count (k v : Z) (self : geocoder) : geocoder :=
  Geocoder (current_api self) (request_counts self)
           (<[k:=v]> (failure_counts self)) (api_disabled self).

Definition put_api_disabled (k : Z) (v : bool) (self : geocoder) : geocoder :=
  Geocoder (current_api self) (request_counts self)
           (failure_counts self) (<[k:=v]> (api_disabled self)).

Definition put_current_api (v : Z) (self : geocoder) : geocoder :=
  Geocoder v (request_counts self) (failure_counts self) (api_disabled self).

Definition set_request_count (k v : Z) : py unit := modify (put_request_count k v).
Definition set_failure_count (k v : Z) : py unit := modify (put_failure_count k v).
Definition set_api_disabled (k : Z) (v : bool) : py unit := modify (put_api_disabled k v).
Definition set_current_api (v : Z) : py unit := modify (put_current_api v).

Definition get_current_api : py Z := λ _ self, inr (current_api self, self, []).

(** [self.session.get(...)] and what follows it up to the test on [data]. *)
Definition session_get (api : Z) (postcode : string) : py response :=
  λ net self, inr (net api postcode, self, [Get api postcode]).

Definition sleep (seconds : float) : py unit := emit (Sleep seconds).

(** ** The class *)

(** [__init__]. *)
Definition __init__ : geocoder :=
  Geocoder 0
    (<[1:=0]> (<[0:=0]> ∅))
    (<[1:=0]> (<[0:=0]> ∅))
    (<[1:=false]> (<[0:=false]> ∅)).

(** The [except] block of a request method for service [api]. *)
Definition on_exception (api : Z) : py (option coords) :=
  n <- getitem failure_counts api ;;
  set_failure_count api (n + 1) ;;
  n' <- getitem failure_counts api ;;
  (if 5 <=? n' then set_api_disabled api true else ret tt) ;;
  ret None.

Definition geocode_nominatim (postcode : string) : py (option coords) :=
  data <- session_get 1 postcode ;;
  match data with
  | Raises => on_exception 1
  | NoResult => ret None
  | Garbled => set_failure_count 1 0 ;; on_exception 1
  | Found lat lon => set_failure_count 1 0 ;; ret (Some (lat, lon))
  end.

Definition geocode_postcodes_io (postcode : string) : py (option coords) :=
  data <- session_get 0 postcode ;;
  match data with
  | Raises => on_exception 0
  | NoResult => ret None
  | Garbled => set_failure_count 0 0 ;; on_exception 0
  | Found lat lon => set_failure_count 0 0 ;; ret (Some (lat, lon))
  end.

(** [geocode_postcode], lines 91-97: if both services are disabled,
    re-enable them and reset the failure counts.  Python's [and] does not
    evaluate its second operand when the first is false. *)
Definition reenable_apis : py unit :=
  d0 <- getitem api_disabled 0 ;;
  both <- (if d0 then getitem api_disabled 1 else ret false) ;;
  if both then
    set_api_disabled 0 false ;;
    set_api_disabled 1 false ;;
    set_failure_count 0 0 ;;
    set_failure_count 1 0
  else ret tt.

(** Lines 99-105: which service to try first; skip a disabled one.
    The result is [(primary_api, fallback_api)]. *)
Definition choose_apis : py (Z * Z) :=
  cur <- get_current_api ;;
  let primary_api := cur in
  let fallback_api := 1 - cur in
  d <- getitem api_disabled primary_api ;;
  if d then ret (fallback_api, primary_api)
  else ret (primary_api, fallback_api).

(** [self.request_counts[k] += 1]. *)
Definition incr_request_count (k : Z) : py unit :=
  n <- getitem request_counts k ;;
  set_request_count k (n + 1).

(** Lines 107-127: the primary attempt.  The result [Some c] stands for
    the statement [return coords]; [None] means control falls through. *)
Definition try_primary (primary_api : Z) (postcode : string)
  : py (option coords) :=
  d <- getitem api_disabled primary_api ;;
  if negb d then
    if primary_api =? 0 then
      coords <- geocode_postcodes_io postcode ;;
      match coords with
      | Some c =>
          incr_request_count 0 ;;
          set_current_api 1 ;;
          sleep 0.1 ;;
          ret (Some c)
      | None => ret None
      end
    else
      coords <- geocode_nominatim postcode ;;
      match coords with
      | Some c =>
          incr_request_count 1 ;;
          set_current_api 0 ;;
          sleep 0.7 ;;
          ret (Some c)
      | None => ret None
      end
  else ret None.

(** Lines 129-151: the fallback attempt, with the same convention. *)
Definition try_fallback (fallback_api : Z) (postcode : string)
  : py (option coords) :=
  d <- getitem api_disabled fallback_api ;;
  if negb d then
    if fallback_api =? 0 then
      coords <- geocode_postcodes_io postcode ;;
      match coords with
      | Some c =>
          incr_request_count 0 ;;
          set_current_api 1 ;;
          sleep 0.1 ;;
          ret (Some c)
      | None => ret None
      end
    else
      sleep 0.7 ;;
      coords <- geocode_nominatim postcode ;;
      match coords with
      | Some c =>
          incr_request_count 1 ;;
          set_current_api 0 ;;
          sleep 0.4 ;;
          ret (Some c)
      | None => ret None
      end
  else ret None.

(** Lines 153-157: both attempts are over without a [return]. *)
Definition give_up_api : py (option coords) :=
  cur <- get_current_api ;;
  set_current_api (1 - cur) ;;
  ret None.

Definition geocode_postcode (postcode : string) : py (option coords) :=
  reenable_apis ;;
  apis <- choose_apis ;;
  let '(primary_api, fallback_api) := apis in
  returned <- try_primary primary_api postcode ;;
  match returned with
  | Some c => ret (Some c)
  | None =>
      returned <- try_fallback fallback_api postcode ;;
      match returned with
      | Some c => ret (Some c)
      | None => give_up_api
      end
  end.

(** The request method [geocode_postcode] calls for the index [api]: the
    test [primary_api == 0] (resp. [fallback_api == 0]) of lines 109 and 133. *)
Definition geocode (api : Z) (postcode : string) : py (option coords) :=
  if api =? 0 then geocode_postcodes_io postcode else geocode_nominatim postcode.

(** ** Objects, runs and traces *)

Definition is_api (api : Z) : Prop := api = 0 ∨ api = 1.

(** The shape [__init__] gives the object and every method keeps: the
    preferred index is 0 or 1 and each dictionary has both keys. *)
Record well_formed (self : geocoder) : Prop := WellFormed {
  wf_current_api : is_api (current_api self);
  wf_request_counts : ∀ api, is_api api → is_Some (request_counts self !! api);
  wf_failure_counts : ∀ api, is_api api → is_Some (failure_counts self !! api);
  wf_api_disabled : ∀ api, is_api api → is_Some (api_disabled self !! api)
}.

(** The objects a batch can see: [__init__] followed by any number of calls
    of [geocode_postcode], whatever the services answer. *)
Inductive reachable : geocoder → Prop :=
| reachable_init : reachable __init__
| reachable_call self postcode net r self' evs :
    reachable self →
    geocode_postcode postcode net self = inr (r, self', evs) →
    reachable self'.

(** The loop of [process_postcodes] (lines 190-200) over the rows that
    carry a postcode: one call of [geocode_postcode] per row, all on the same
    object.  Each row comes with what the services answer at that moment. *)
Fixpoint run (rows : list (string * network)) (self : geocoder)
  : exn + (list (option coords) * geocoder * list event) :=
  match rows with
  | [] => inr ([], self, [])
  | (postcode, net) :: rows =>
      match geocode_postcode postcode net self with
      | inl e => inl e
      | inr (r, self1, evs1) =>
          match run rows self1 with
          | inl e => inl e
          | inr (rs, self2, evs2) => inr (r :: rs, self2, evs1 ++ evs2)
          end
      end
  end.

(** Consecutive requests to one service, each with its own postcode and its
    own answers; the object after the last one. *)
Fixpoint ask (api : Z) (qs : list (string * network)) (self : geocoder)
  : exn + geocoder :=
  match qs with
  | [] => inr self
  | (postcode, net) :: qs =>
      match geocode api postcode net self with
      | inl e => inl e
      | inr (_, self', _) => ask api qs self'
      end
  end.

(** How many of these requests raise. *)
Fixpoint raised (api : Z) (qs : list (string * network)) : Z :=
  match qs with
  | [] => 0
  | (postcode, net) :: qs =>
      match net api postcode with
      | Raises => 1 + raised api qs
      | _ => raised api qs
      end
  end.

(** The services asked, in order. *)
Fixpoint requests (evs : list event) : list Z :=
  match evs with
  | [] => []
  | Get api _ :: evs => api :: requests evs
  | Sleep _ :: evs => requests evs
  end.

(** Is every request to Nominatim in [evs] immediately preceded by a pause
    of at least [delay] seconds?  [prev] is the event just before [evs]. *)
Fixpoint paused_before_nominatim (delay : float) (prev : option event)
    (evs : list event) : bool :=
  match evs with
  | [] => true
  | Get 1 pc :: evs' =>
      match prev with
      | Some (Sleep t) => PrimFloat.leb delay t
      | _ => false
      end && paused_before_nominatim delay (Some (Get 1 pc)) evs'
  | e :: evs' => paused_before_nominatim delay (Some e) evs'
  end.

(** The counters and the flag of one service, as the invariant relates
    them: at most 5 failures, and disabled exactly at 5. *)
Definition health_ok (self : geocoder) (api : Z) : Prop :=
  ∃ n d, failure_counts self !! api = Some n ∧
         api_disabled self !! api = Some d ∧
         0 ≤ n ≤ 5 ∧ (d = true ↔ n = 5).

(** The object after the four assignments of lines 94-97. *)
Definition reenabled (self : geocoder) : geocoder :=
  put_failure_count 1 0
    (put_failure_count 0 0
       (put_api_disabled 1 false (put_api_disabled 0 false self))).

(** ** The batch driver *)

(** [postcode.replace(' ', '')] and the address [geocode_postcodes_io]
    requests (line 62). *)
Fixpoint remove_spaces (s : string) : string :=
  match s with
  | EmptyString => EmptyString
  | String c s' =>
      if Ascii.eqb c (Ascii.ascii_of_nat 32) then remove_spaces s' else String c (remove_spaces s')
  end.

Definition postcodes_io_url (postcode : string) : string :=
  "https://api.postcodes.io/postcodes/" +:+ remove_spaces postcode.

(** The services asked in turn, starting with [c]: [c], [1 - c], [c], ... *)
Fixpoint turns (c : Z) (n : nat) : list Z :=
  match n with
  | O => []
  | S n => c :: turns (1 - c) n
  end.

(** The three columns [process_postcodes] adds to every row (lines 182-184)
    and fills in for a geocoded row (lines 203-205). *)
Record columns : Type := Columns {
  latitude : option float;
  longitude : option float;
  geocoded : bool
}.

Definition untouched : columns := Columns None None false.

(** The state of the loop of [process_postcodes]: the geocoder, the counter
    [successful], the new columns of the rows gone through so far, the
    temporary saves as pairs [(index + 1, successful)], and the requests
    and pauses so far. *)
Record batch : Type := Batch {
  the_geocoder : geocoder;
  successful : Z;
  frame : list columns;
  saved : list (Z * Z);
  seen : list event
}.

Definition fresh_batch : batch := Batch __init__ 0 [] [] [].




Section process_postcodes.

(** Python's [str.strip] and [str.lower]. *)
Variables strip lower : string → string.

(** The test of line 193.  [postcode] is a string, for which [pd.isna] is
    false. *)
Definition skipped (postcode : string) : bool :=
  false || String.eqb postcode "" || String.eqb (lower postcode) "nan".

(** The body of the loop, lines 191-214, for the row at [index] whose cell
    in the postcode column reads [cell] once through [str].  A skipped row
    leaves the loop body at [continue], before the temporary save.  The
    index of a frame that has just been read is the position of the row,
    from 0; writing the temporary file is taken to succeed and is recorded
    in [saved]. *)
Definition process_row (index : Z) (cell : string) (net : network) (b : batch)
  : exn + batch :=
  let postcode := strip cell in
  if skipped postcode then
    inr (Batch (the_geocoder b) (successful b) (frame b ++ [untouched])
               (saved b) (seen b))
  else
    match geocode_postcode postcode net (the_geocoder b) with
    | inl e => inl e
    | inr (coords, self', evs) =>
        let row :=
          match coords with
          | Some c => Columns (Some c.1) (Some c.2) true
          | None => untouched
          end in
        let successful' :=
          match coords with
          | Some _ => successful b + 1
          | None => successful b
          end in
        let saved' :=
          if (index + 1) mod 50 =? 0
          then saved b ++ [(index + 1, successful')]
          else saved b in
        inr (Batch self' successful' (frame b ++ [row]) saved' (seen b ++ evs))
    end.

(** The loop, lines 190-214, from the row at [index] on. *)
Fixpoint process_rows (index : Z) (rows : list (string * network)) (b : batch)
  : exn + batch :=
  match rows with
  | [] => inr b
  | (cell, net) :: rows =>
      match process_row index cell net b with
      | inl e => inl e
      | inr b' => process_rows (index + 1) rows b'
      end
  end.


End process_postcodes.

(** ** Running a method *)

(** [wp m net self Q]: the method [m] returns normally from [self], and its
    result, the object it leaves and the events it produced satisfy [Q]. *)
Definition wp {A} (m : py A) (net : network) (self : geocoder)
    (Q : A → geocoder → list event → Prop) : Prop :=
  match m net self with
  | inl _ => False
  | inr (a, self', evs) => Q a self' evs
  end.

Section wp_rules.
Context {A B : Type}.
Implicit Types (net : network) (self : geocoder).

Lemma wp_intro (m : py A) net self Q :
  wp m net self Q ↔ ∃ a self' evs, m net self = inr (a, self', evs) ∧ Q a self' evs.
Proof.
  unfold wp. split.
  - destruct (m net self) as [e | [[a s] evs]]; [tauto | eauto].
  - intros (a & s & evs & -> & HQ). exact HQ.
Qed.

Lemma wp_elim (m : py A) net self Q a self' evs :
  wp m net self Q → m net self = inr (a, self', evs) → Q a self' evs.
Proof. unfold wp. intros H E. rewrite E in H. exact H. Qed.

Lemma wp_ret (a : A) net self Q : Q a self [] → wp (ret a) net self Q.
Proof. exact id. Qed.

Lemma wp_bind (m : py A) (k : A → py B) net self Q :
  wp m net self (λ a s evs, wp (k a) net s (λ b s' evs', Q b s' (evs ++ evs'))) →
  wp (bind m k) net self Q.
Proof.
  unfold wp, bind. destruct (m net self) as [e | [[a s] evs]]; [tauto |].
  destruct (k a net s) as [e | [[b s'] evs']]; tauto.
Qed.

Lemma wp_getitem {V} (d : geocoder → gmap Z V) k v net self Q :
  d self !! k = Some v → Q v self [] → wp (getitem d k) net self Q.
Proof. unfold wp, getitem. intros ->. exact id. Qed.
End wp_rules.

Lemma wp_modify f net self Q : Q tt (f self) [] → wp (modify f) net self Q.
Proof. exact id. Qed.

Lemma wp_session_get api pc net self Q :
  Q (net api pc) self [Get api pc] → wp (session_get api pc) net self Q.
Proof. exact id. Qed.

Lemma wp_sleep t net self Q : Q tt self [Sleep t] → wp (sleep t) net self Q.
Proof. exact id. Qed.

Lemma wp_get_current_api net self Q :
  Q (current_api self) self [] → wp get_current_api net self Q.
Proof. exact id. Qed.

(** A first step that produces no event. *)
Lemma bind_silent {A B} (m : py A) (k : A → py B) net self a self' :
  m net self = inr (a, self', []) → bind m k net self = k a net self'.
Proof.
  intros E. unfold bind. rewrite E.
  destruct (k a net self') as [e | [[b s] evs]]; reflexivity.
Qed.

(** ** Symbolic execution *)

Ltac fields :=
  cbn beta iota delta [current_api request_counts failure_counts api_disabled
                       put_request_count put_failure_count put_api_disabled
                       put_current_api].

(** Lookups in dictionaries that have been assigned to at known keys. *)
Ltac map_lookup :=
  fields;
  repeat first [ rewrite lookup_insert_eq
               | rewrite lookup_insert_ne by (clear; lia) ];
  first [ reflexivity | eassumption ].

Lemma is_api_cases (P : Z → Prop) : P 0 → P 1 → ∀ api, is_api api → P api.
Proof. intros H0 H1 api [-> | ->]; assumption. Qed.

(** *** The request methods *)

Lemma on_exception_wp api net self n d Q :
  failure_counts self !! api = Some n →
  api_disabled self !! api = Some d →
  Q None (put_api_disabled api (d || (5 <=? n + 1))
            (put_failure_count api (n + 1) self)) [] →
  wp (on_exception api) net self Q.
Proof.
  intros Hn Hd HQ. unfold on_exception.
  apply wp_bind. eapply wp_getitem; [eassumption |].
  apply wp_bind, wp_modify, wp_bind. eapply wp_getitem; [map_lookup |].
  apply wp_bind. destruct (5 <=? n + 1).
  - apply wp_modify, wp_ret. rewrite orb_true_r in HQ. exact HQ.
  - apply wp_ret, wp_ret. rewrite orb_false_r in HQ.
    unfold put_api_disabled in HQ. cbn in HQ.
    rewrite (insert_id (api_disabled self)) in HQ by exact Hd. exact HQ.
Qed.

Lemma geocode_nominatim_wp pc net self n d Q :
  failure_counts self !! 1 = Some n →
  api_disabled self !! 1 = Some d →
  match net 1 pc with
  | Raises =>
      Q None (put_api_disabled 1 (d || (5 <=? n + 1))
                (put_failure_count 1 (n + 1) self)) [Get 1 pc]
  | NoResult => Q None self [Get 1 pc]
  | Garbled =>
      Q None (put_api_disabled 1 d
                (put_failure_count 1 1 (put_failure_count 1 0 self))) [Get 1 pc]
  | Found lat lon =>
      Q (Some (lat, lon)) (put_failure_count 1 0 self) [Get 1 pc]
  end →
  wp (geocode_nominatim pc) net self Q.
Proof.
  intros Hn Hd HQ. unfold geocode_nominatim.
  apply wp_bind, wp_session_get. destruct (net 1 pc).
  - eapply on_exception_wp; eauto.
  - apply wp_ret, HQ.
  - apply wp_bind, wp_modify. eapply on_exception_wp; [map_lookup .. |].
    change (5 <=? 0 + 1) with false. rewrite orb_false_r. exact HQ.
  - apply wp_bind, wp_modify, wp_ret, HQ.
Qed.

Lemma geocode_postcodes_io_wp pc net self n d Q :
  failure_counts self !! 0 = Some n →
  api_disabled self !! 0 = Some d →
  match net 0 pc with
  | Raises =>
      Q None (put_api_disabled 0 (d || (5 <=? n + 1))
                (put_failure_count 0 (n + 1) self)) [Get 0 pc]
  | NoResult => Q None self [Get 0 pc]
  | Garbled =>
      Q None (put_api_disabled 0 d
                (put_failure_count 0 1 (put_failure_count 0 0 self))) [Get 0 pc]
  | Found lat lon =>
      Q (Some (lat, lon)) (put_failure_count 0 0 self) [Get 0 pc]
  end →
  wp (geocode_postcodes_io pc) net self Q.
Proof.
  intros Hn Hd HQ. unfold geocode_postcodes_io.
  apply wp_bind, wp_session_get. destruct (net 0 pc).
  - eapply on_exception_wp; eauto.
  - apply wp_ret, HQ.
  - apply wp_bind, wp_modify. eapply on_exception_wp; [map_lookup .. |].
    change (5 <=? 0 + 1) with false. rewrite orb_false_r. exact HQ.
  - apply wp_bind, wp_modify, wp_ret, HQ.
Qed.

(** A request that finds a match, or finds nothing, needs nothing of the
    object: these two paths never read a dictionary. *)
Lemma geocode_found api pc net self lat lon :
  is_api api → net api pc = Found lat lon →
  geocode api pc net self
  = inr (Some (lat, lon), put_failure_count api 0 self, [Get api pc]).
Proof.
  intros [-> | ->] E; cbn;
    unfold geocode_postcodes_io, geocode_nominatim, bind, session_get;
    rewrite E; reflexivity.
Qed.

Lemma geocode_no_result api pc net self :
  is_api api → net api pc = NoResult →
  geocode api pc net self = inr (None, self, [Get api pc]).
Proof.
  intros [-> | ->] E; cbn;
    unfold geocode_postcodes_io, geocode_nominatim, bind, session_get;
    rewrite E; reflexivity.
Qed.

(** The only way out of a request method with a coordinate is the [Found]
    path. *)
Lemma geocode_some api pc net self c self' evs :
  is_api api → geocode api pc net self = inr (Some c, self', evs) →
  net api pc = Found c.1 c.2 ∧ self' = put_failure_count api 0 self.
Proof.
  intros [-> | ->]; cbn;
    unfold geocode_postcodes_io, geocode_nominatim, bind, session_get,
      on_exception, bind, getitem, set_failure_count, set_api_disabled, modify, ret.
  all: destruct (net _ pc); fields;
    repeat match goal with
           | |- context [match ?m !! ?k with _ => _ end] => destruct (m !! k)
           | |- context [if ?b then _ else _] => destruct b
           end; intros [=]; subst; auto.
Qed.

(** *** Whole calls *)

Lemma well_formed_lookups self :
  well_formed self →
  is_api (current_api self) ∧
  ∃ r0 r1 f0 f1 d0 d1,
    request_counts self !! 0 = Some r0 ∧ request_counts self !! 1 = Some r1 ∧
    failure_counts self !! 0 = Some f0 ∧ failure_counts self !! 1 = Some f1 ∧
    api_disabled self !! 0 = Some d0 ∧ api_disabled self !! 1 = Some d1.
Proof.
  intros [Hc Hr Hf Hd]. split; [exact Hc |].
  destruct (Hr 0) as [r0 ?]; [left; reflexivity |].
  destruct (Hr 1) as [r1 ?]; [right; reflexivity |].
  destruct (Hf 0) as [f0 ?]; [left; reflexivity |].
  destruct (Hf 1) as [f1 ?]; [right; reflexivity |].
  destruct (Hd 0) as [d0 ?]; [left; reflexivity |].
  destruct (Hd 1) as [d1 ?]; [right; reflexivity |].
  exists r0, r1, f0, f1, d0, d1. auto 10.
Qed.

(** Name the six entries of a well-formed object and split on its
    preferred index. *)
Ltac wf_open H :=
  apply well_formed_lookups in H;
  let Hc := fresh "Hc" in
  destruct H as [Hc (r0 & r1 & f0 & f1 & d0 & d1 & Hr0 & Hr1 & Hf0 & Hf1 & Hd0 & Hd1)];
  match type of Hc with
  | is_api (current_api ?self) =>
      destruct self as [cur rc fc ad];
      cbn [current_api request_counts failure_counts api_disabled] in *;
      destruct Hc as [-> | ->]
  end.

Ltac wp_head m :=
  lazymatch m with
  | ?f _ _ _ => wp_head f
  | ?f _ _ => wp_head f
  | ?f _ => wp_head f
  | ?f => f
  end.

(** One step through a method body. *)
Ltac wp_step :=
  fields;
  lazymatch goal with
  | |- wp (bind _ _) _ _ _ => apply wp_bind
  | |- wp (ret _) _ _ _ => apply wp_ret
  | |- wp (getitem _ _) _ _ _ => eapply wp_getitem; [map_lookup |]
  | |- wp (modify _) _ _ _ => apply wp_modify
  | |- wp (sleep _) _ _ _ => apply wp_sleep
  | |- wp get_current_api _ _ _ => apply wp_get_current_api
  | |- wp (geocode_nominatim _) _ _ _ =>
      eapply geocode_nominatim_wp; [map_lookup | map_lookup |]
  | |- wp (geocode_postcodes_io _) _ _ _ =>
      eapply geocode_postcodes_io_wp; [map_lookup | map_lookup |]
  | |- wp (if ?b then _ else _) _ _ _ => destruct b eqn:?
  | |- wp (match ?x with _ => _ end) _ _ _ => destruct x eqn:?
  | H : ?x = _ |- match ?x with _ => _ end => rewrite H
  | |- match ?x with _ => _ end => destruct x eqn:?
  | |- wp ?m _ _ _ => let h := wp_head m in unfold h
  end.

Ltac wp_run := repeat wp_step; try discriminate; fields; cbn [app].

(** *** The invariant of a batch *)

Lemma well_formed_init : well_formed __init__.
Proof.
  split; [left; reflexivity | ..];
    apply is_api_cases; eexists; reflexivity.
Qed.

Lemma health_ok_init api : is_api api → health_ok __init__ api.
Proof.
  revert api. apply is_api_cases; exists 0, false;
    repeat split; first [reflexivity | lia | discriminate].
Qed.

Ltac solve_well_formed :=
  split; fields;
  [ first [left; reflexivity | right; reflexivity]
  | apply is_api_cases; eexists; map_lookup .. ].

Ltac solve_health_ok :=
  do 2 eexists; (split; [map_lookup |]); (split; [map_lookup |]);
  repeat match goal with
         | H : negb ?d = true |- _ => destruct d; [discriminate H |]; clear H
         | H : negb ?d = false |- _ => destruct d; [clear H | discriminate H]
         end;
  cbn [orb]; rewrite ?Z.leb_le; intuition (first [lia | congruence]).

(** A call keeps the object well formed and keeps, for each service, at
    most 5 failures with the flag set exactly at 5. *)
Lemma geocode_postcode_invariant pc net self :
  well_formed self → health_ok self 0 → health_ok self 1 →
  wp (geocode_postcode pc) net self
     (λ _ self' _, well_formed self' ∧ health_ok self' 0 ∧ health_ok self' 1).
Proof.
  intros Hwf (n0 & e0 & Hn0 & He0 & B0 & E0) (n1 & e1 & Hn1 & He1 & B1 & E1).
  wf_open Hwf; cbn in Hn0, He0, Hn1, He1; simplify_eq.
  all: wp_run.
  all: split; [solve_well_formed | split; solve_health_ok].
Qed.

Lemma reachable_invariant self :
  reachable self → well_formed self ∧ health_ok self 0 ∧ health_ok self 1.
Proof.
  induction 1 as [| self pc net r self' evs _ (Hwf & H0 & H1) Hrun].
  - split; [apply well_formed_init |].
    split; apply health_ok_init; [left | right]; reflexivity.
  - exact (wp_elim _ _ _ _ _ _ _
             (geocode_postcode_invariant pc net self Hwf H0 H1) Hrun).
Qed.

(** Lookups in the goal, through the assignments of the call. *)
Ltac map_simpl :=
  fields;
  change (1 - 0) with 1 in *; change (1 - 1) with 0 in *;
  change (5 <=? 0 + 1) with false in *;
  repeat first [ rewrite lookup_insert_eq
               | rewrite lookup_insert_ne by (clear; lia) ];
  repeat match goal with
         | H : ?m !! ?k = Some _ |- context [?m !! ?k] => rewrite H
         end.

Ltac decide_goal := apply (bool_decide_unpack _); vm_compute; exact I.

(** A request that raises, as an equation. *)
Lemma geocode_raises api pc net self n d :
  is_api api → net api pc = Raises →
  failure_counts self !! api = Some n →
  api_disabled self !! api = Some d →
  geocode api pc net self
  = inr (None,
         put_api_disabled api (d || (5 <=? n + 1))
           (put_failure_count api (n + 1) self),
         [Get api pc]).
Proof.
  intros Hapi E Hn Hd.
  cut (wp (geocode api pc) net self (λ r s evs,
         (r, s, evs) =
         (None, put_api_disabled api (d || (5 <=? n + 1))
                  (put_failure_count api (n + 1) self), [Get api pc]))).
  { intros H. apply wp_intro in H as (r & s & evs & -> & ->). reflexivity. }
  destruct Hapi as [-> | ->]; cbn [geocode Z.eqb].
  - eapply geocode_postcodes_io_wp; [eassumption .. |]. rewrite E. reflexivity.
  - eapply geocode_nominatim_wp; [eassumption .. |]. rewrite E. reflexivity.
Qed.

(** Requests to one service that raise or find nothing, started anywhere
    in a streak: the count grows by the number that raised. *)
Lemma ask_streak api qs :
  is_api api →
  Forall (λ q : string * network,
            q.2 api q.1 = Raises ∨ q.2 api q.1 = NoResult) qs →
  ∀ self n,
    failure_counts self !! api = Some n →
    api_disabled self !! api = Some (5 <=? n) →
    ∃ self', ask api qs self = inr self' ∧
             failure_counts self' !! api = Some (n + raised api qs) ∧
             api_disabled self' !! api = Some (5 <=? n + raised api qs).
Proof.
  intros Hapi. induction 1 as [| [pc net] qs [E | E] _ IH]; intros self n Hn Hd.
  - exists self. cbn [ask raised]. rewrite Z.add_0_r. auto.
  - cbn [ask raised fst snd] in *.
    rewrite (geocode_raises api pc net self n _ Hapi E Hn Hd), E.
    destruct (IH (put_api_disabled api ((5 <=? n) || (5 <=? n + 1))
                    (put_failure_count api (n + 1) self)) (n + 1))
      as (self' & Hask & Hn' & Hd').
    + map_lookup.
    + fields. rewrite lookup_insert_eq. f_equal.
      destruct (Z.leb_spec 5 n), (Z.leb_spec 5 (n + 1)); (reflexivity || lia).
    + exists self'. rewrite Z.add_assoc. auto.
  - cbn [ask raised fst snd] in *.
    rewrite (geocode_no_result api pc net self Hapi E), E.
    apply IH; assumption.
Qed.

Lemma run_reachable rows :
  ∀ self, reachable self →
  match run rows self with
  | inl _ => True
  | inr (_, self', _) => reachable self'
  end.
Proof.
  induction rows as [| [pc net] rows IH]; intros self Hreach; cbn [run].
  - exact Hreach.
  - destruct (geocode_postcode pc net self) as [e | [[r self1] evs1]] eqn:E;
      [exact I |].
    specialize (IH self1 (reachable_call _ _ _ _ _ _ Hreach E)).
    destruct (run rows self1) as [e | [[rs self2] evs2]]; [exact I | exact IH].
Qed.

(** ** Claims *)

(** C6.  Whenever a request to a service succeeds, that service's failure
    count is 0 right afterwards, whatever it was before: a reported match
    makes the request return the coordinate and leave the count at 0, and
    every return of a coordinate leaves it at 0. *)
Theorem success_resets_failure_count api pc net self :
  is_api api →
  (∀ lat lon, net api pc = Found lat lon →
     ∃ self', geocode api pc net self = inr (Some (lat, lon), self', [Get api pc]) ∧
              failure_counts self' !! api = Some 0) ∧
  (∀ c self' evs, geocode api pc net self = inr (Some c, self', evs) →
     failure_counts self' !! api = Some 0).
Proof.
  intros Hapi. split.
  - intros lat lon E. eexists. split; [apply geocode_found; assumption |].
    map_lookup.
  - intros c self' evs E. apply geocode_some in E as [_ ->]; [| assumption].
    map_lookup.
Qed.

Lemma success_resets_failure_count_witness :
  is_api 1 ∧
  ∃ self', geocode 1 "SW1A 1AA" (λ _ _, Found 51.5010 (-0.1419))
             (put_failure_count 1 4 __init__)
           = inr (Some (51.5010, -0.1419)%float, self', [Get 1 "SW1A 1AA"]) ∧
           failure_counts self' !! 1 = Some 0.
Proof.
  split; [right; reflexivity |].
  apply (success_resets_failure_count 1 "SW1A 1AA" (λ _ _, Found 51.5010 (-0.1419))
           (put_failure_count 1 4 __init__)); [right |]; reflexivity.
Defined.

(** C8, as the code has it.  A response that reports no match makes the
    request method return [None] and leaves the whole object as it was: the
    failure count of the service is not incremented and its flag is not
    touched. *)
Theorem no_result_leaves_health api pc net self :
  is_api api → net api pc = NoResult →
  geocode api pc net self = inr (None, self, [Get api pc]).
Proof. apply geocode_no_result. Qed.

Lemma no_result_leaves_health_witness :
  geocode 1 "ZZ99 9ZZ" (λ _ _, NoResult) __init__
  = inr (None, __init__, [Get 1 "ZZ99 9ZZ"]).
Proof.
  apply (no_result_leaves_health 1 "ZZ99 9ZZ" (λ _ _, NoResult) __init__);
    [right |]; reflexivity.
Defined.

(** C8 fails as stated.  Nominatim has failed four times in a row, in four
    rows for which postcodes.io had no match either.  A fifth request that
    raises brings the count to 5 and disables the service; a fifth request
    answered with an empty list leaves the count at 4 and the service
    enabled. *)
Lemma no_result_is_not_counted :
  reachable (put_failure_count 1 4 __init__) ∧
  (∃ s, geocode_nominatim "ZZ99 9ZZ" (λ _ _, Raises) (put_failure_count 1 4 __init__)
        = inr (None, s, [Get 1 "ZZ99 9ZZ"]) ∧
        failure_counts s !! 1 = Some 5 ∧ api_disabled s !! 1 = Some true) ∧
  (∃ s, geocode_nominatim "ZZ99 9ZZ" (λ _ _, NoResult) (put_failure_count 1 4 __init__)
        = inr (None, s, [Get 1 "ZZ99 9ZZ"]) ∧
        failure_counts s !! 1 = Some 4 ∧ api_disabled s !! 1 = Some false) ∧
  ¬ (∀ r s evs,
       geocode_nominatim "ZZ99 9ZZ" (λ _ _, NoResult) (put_failure_count 1 4 __init__)
       = inr (r, s, evs) →
       failure_counts s !! 1 = Some (4 + 1) ∧ api_disabled s !! 1 = Some true).
Proof.
  split; [| split; [| split]].
  - exact (run_reachable
             (replicate 4 ("ZZ99 9ZZ", λ api _, if api =? 0 then NoResult
                                                else Raises))
             __init__ reachable_init).
  - eexists. split; [vm_compute; reflexivity |]. split; reflexivity.
  - eexists. split; [vm_compute; reflexivity |]. split; reflexivity.
  - intros H. destruct (H None (put_failure_count 1 4 __init__) [Get 1 "ZZ99 9ZZ"]) as [E _].
    + reflexivity.
    + vm_compute in E. discriminate E.
Qed.

(** C2.  If both services are disabled when [geocode_postcode] is called,
    its first block sets both flags to false and both failure counts to 0
    without sending anything, and the call then is the call made on the
    re-enabled object. *)
Theorem both_disabled_recovery pc net self :
  api_disabled self !! 0 = Some true →
  api_disabled self !! 1 = Some true →
  reenable_apis net self = inr (tt, reenabled self, []) ∧
  (∀ api, is_api api →
     api_disabled (reenabled self) !! api = Some false ∧
     failure_counts (reenabled self) !! api = Some 0) ∧
  current_api (reenabled self) = current_api self ∧
  request_counts (reenabled self) = request_counts self ∧
  geocode_postcode pc net self = geocode_postcode pc net (reenabled self).
Proof.
  intros H0 H1.
  assert (E : reenable_apis net self = inr (tt, reenabled self, [])).
  { unfold reenable_apis, bind, getitem. rewrite H0, H1. reflexivity. }
  assert (E' : reenable_apis net (reenabled self) = inr (tt, reenabled self, [])).
  { unfold reenable_apis, bind, getitem.
    replace (api_disabled (reenabled self) !! 0) with (Some false)
      by (symmetry; unfold reenabled; map_lookup).
    reflexivity. }
  split; [exact E |]. split; [| split; [reflexivity | split; [reflexivity |]]].
  - apply is_api_cases; split; unfold reenabled; map_lookup.
  - unfold geocode_postcode.
    rewrite (bind_silent _ _ _ _ _ _ E), (bind_silent _ _ _ _ _ _ E').
    reflexivity.
Qed.

Lemma both_disabled_recovery_witness :
  reenable_apis (λ _ _, Found 51.5010 (-0.1419))
    (put_api_disabled 1 true (put_api_disabled 0 true
       (put_failure_count 1 5 (put_failure_count 0 5 __init__))))
  = inr (tt, __init__, []).
Proof.
  pose proof (both_disabled_recovery "SW1A 1AA" (λ _ _, Found 51.5010 (-0.1419))
    (put_api_disabled 1 true (put_api_disabled 0 true
       (put_failure_count 1 5 (put_failure_count 0 5 __init__))))
    eq_refl eq_refl) as [E _].
  rewrite E. vm_compute. reflexivity.
Defined.

(** C3.  After a call of [geocode_postcode] that returns a coordinate, the
    preferred index differs from the service that produced it: the last
    request of the call went to a service [p] that reported this very
    coordinate, and [current_api] is now the other index [1 - p], whether
    [p] was asked first or second. *)
Theorem rotation_after_success pc net self c self' evs :
  well_formed self →
  geocode_postcode pc net self = inr (Some c, self', evs) →
  ∃ p, is_api p ∧ last (requests evs) = Some p ∧
       net p pc = Found c.1 c.2 ∧
       current_api self' = 1 - p ∧ current_api self' ≠ p.
Proof.
  intros Hwf Hrun.
  cut (wp (geocode_postcode pc) net self (λ r s evs,
         ∀ c, r = Some c →
              ∃ p, is_api p ∧ last (requests evs) = Some p ∧
                   net p pc = Found c.1 c.2 ∧
                   current_api s = 1 - p ∧ current_api s ≠ p)).
  { intros H. exact (wp_elim _ _ _ _ _ _ _ H Hrun c eq_refl). }
  clear Hrun. wf_open Hwf.
  all: wp_run.
  all: intros ? [= <-].
  all: first [ exists 0; split; [left; reflexivity |];
                 split; [reflexivity |]; split; [assumption |];
                 split; [reflexivity | discriminate]
               | exists 1; split; [right; reflexivity |];
                 split; [reflexivity |]; split; [assumption |];
                 split; [reflexivity | discriminate] ].
Qed.

(** C4.  A call of [geocode_postcode] on a well-formed object returns, and
    starts with a request to some service [p].  If that first request finds
    a coordinate, the call returns it and [p] is the only service asked:
    the other request method is not invoked. *)
Theorem primary_success_skips_fallback pc net self :
  well_formed self →
  ∃ r self' evs,
    geocode_postcode pc net self = inr (r, self', evs) ∧
    ∃ p, is_api p ∧ head evs = Some (Get p pc) ∧
         ∀ lat lon, net p pc = Found lat lon →
                    r = Some (lat, lon) ∧ requests evs = [p].
Proof.
  intros Hwf. apply wp_intro. wf_open Hwf.
  all: wp_run.
  all: first [ exists 0; split; [left; reflexivity |]; split; [reflexivity |]
             | exists 1; split; [right; reflexivity |]; split; [reflexivity |] ].
  all: intros ? ? E; rewrite E in *; simplify_eq; split; reflexivity.
Qed.

(** C5.  If the preferred service is disabled and the other one is not,
    the first thing the call does is a request to the other one. *)
Theorem healthy_api_goes_first pc net self :
  well_formed self →
  api_disabled self !! current_api self = Some true →
  api_disabled self !! (1 - current_api self) = Some false →
  ∃ r self' evs,
    geocode_postcode pc net self = inr (r, self', evs) ∧
    head evs = Some (Get (1 - current_api self) pc) ∧
    head (requests evs) = Some (1 - current_api self).
Proof.
  intros Hwf Hp Hf. apply wp_intro. wf_open Hwf.
  all: cbn in Hp, Hf; simplify_eq.
  all: wp_run; simplify_eq.
  all: split; reflexivity.
Qed.

(** C9, as the code has it.  Within a call, a request to Nominatim made as
    the fallback attempt comes right after a pause of 0.7 s, which follows
    the request to postcodes.io.  A request to Nominatim made as the primary
    attempt is the first event of the call, with no pause before it; when it
    finds a coordinate, a pause of 0.7 s is all that follows. *)
Theorem nominatim_pauses pc net self r self' evs :
  well_formed self →
  geocode_postcode pc net self = inr (r, self', evs) →
  ∀ pre pc' post, evs = pre ++ Get 1 pc' :: post →
    pre = [Get 0 pc; Sleep 0.7] ∨
    (pre = [] ∧ ∀ lat lon, net 1 pc = Found lat lon → post = [Sleep 0.7]).
Proof.
  intros Hwf Hrun.
  cut (wp (geocode_postcode pc) net self (λ _ _ evs,
         ∀ pre pc' post, evs = pre ++ Get 1 pc' :: post →
           pre = [Get 0 pc; Sleep 0.7] ∨
           (pre = [] ∧ ∀ lat lon, net 1 pc = Found lat lon → post = [Sleep 0.7]))).
  { intros H. exact (wp_elim _ _ _ _ _ _ _ H Hrun). }
  clear Hrun. wf_open Hwf.
  all: wp_run.
  all: intros pre pc' post E;
    repeat (destruct pre as [| ? pre]; simplify_eq/=);
    first [ left; reflexivity
          | right; split; [reflexivity |]; intros; simplify_eq; reflexivity ].
Qed.

(** C7.  In every object reachable from [__init__] by calls of
    [geocode_postcode], a service is disabled only with a failure count of
    at least 5.  Once a service is disabled, a call leaves it disabled as
    long as the other service is enabled when the call starts; its flag is
    false after a call only if the other service was disabled too, that is,
    only through the re-enabling of both at the start of the call. *)
Theorem disabled_only_at_threshold self api :
  reachable self → is_api api →
  (api_disabled self !! api = Some true →
   ∃ n, failure_counts self !! api = Some n ∧ 5 ≤ n) ∧
  (∀ pc net r self' evs,
     geocode_postcode pc net self = inr (r, self', evs) →
     api_disabled self !! api = Some true →
     (api_disabled self !! (1 - api) = Some false →
      api_disabled self' !! api = Some true) ∧
     (api_disabled self' !! api = Some false →
      api_disabled self !! (1 - api) = Some true)).
Proof.
  intros Hreach Hapi.
  destruct (reachable_invariant self Hreach) as (Hwf & H0 & H1). split.
  - assert (Hok : health_ok self api) by (destruct Hapi as [-> | ->]; assumption).
    destruct Hok as (n & d & Hn & Hd & _ & Hnd). intros E.
    exists n. split; [exact Hn |]. rewrite Hd in E. simplify_eq. lia.
  - clear H0 H1 Hreach. intros pc net r self' evs Hrun Hd.
    cut (wp (geocode_postcode pc) net self (λ _ s _,
           (api_disabled self !! (1 - api) = Some false →
            api_disabled s !! api = Some true) ∧
           (api_disabled s !! api = Some false →
            api_disabled self !! (1 - api) = Some true))).
    { intros H. exact (wp_elim _ _ _ _ _ _ _ H Hrun). }
    clear Hrun. wf_open Hwf; destruct Hapi as [-> | ->];
      cbn in Hd; simplify_eq.
    all: wp_run; simplify_eq.
    all: map_simpl; cbn; split; congruence.
Qed.

(** C10.  In every reachable object the failure count of each service is
    between 0 and 5, and a count of 5 comes with the flag set.  A call asks
    no service twice, and does not ask a disabled service at all while the
    other one is enabled (no re-enabling at the start of the call). *)
Theorem failure_count_at_most_five self api :
  reachable self → is_api api →
  (∃ n, failure_counts self !! api = Some n ∧ 0 ≤ n ≤ 5 ∧
        (n = 5 → api_disabled self !! api = Some true)) ∧
  (∀ pc net r self' evs,
     geocode_postcode pc net self = inr (r, self', evs) →
     NoDup (requests evs) ∧
     (api_disabled self !! api = Some true →
      api_disabled self !! (1 - api) = Some false →
      api ∉ requests evs)).
Proof.
  intros Hreach Hapi.
  destruct (reachable_invariant self Hreach) as (Hwf & H0 & H1). split.
  - assert (Hok : health_ok self api) by (destruct Hapi as [-> | ->]; assumption).
    destruct Hok as (n & d & Hn & Hd & Hb & Hnd).
    exists n. split; [exact Hn |]. split; [exact Hb |].
    intros E. rewrite Hd. f_equal. apply Hnd, E.
  - clear H0 H1 Hreach. intros pc net r self' evs Hrun.
    cut (wp (geocode_postcode pc) net self (λ _ _ evs,
           NoDup (requests evs) ∧
           (api_disabled self !! api = Some true →
            api_disabled self !! (1 - api) = Some false →
            api ∉ requests evs))).
    { intros H. exact (wp_elim _ _ _ _ _ _ _ H Hrun). }
    clear Hrun. wf_open Hwf; destruct Hapi as [-> | ->].
    all: wp_run.
    all: split; [decide_goal |].
    all: map_simpl; cbn; intros; simplify_eq; decide_goal.
Qed.

(** C1, as the code has it.  Requests to one service that raise are what
    the failure count counts.  From a count of 0 and a cleared flag, after
    any sequence of requests to the service that raise or find nothing, the
    count is the number of requests that raised and the flag is set exactly
    when that number has reached 5: still cleared at 4, set at 5.  Inside
    [geocode_postcode] a request that raises does this bookkeeping wherever
    it is made, as the primary or as the fallback attempt: the count goes
    up by one and the flag is set exactly when the new count is at least 5. *)
Theorem raising_requests_disable_at_five api :
  is_api api →
  (∀ qs self,
     failure_counts self !! api = Some 0 →
     api_disabled self !! api = Some false →
     Forall (λ q : string * network,
               q.2 api q.1 = Raises ∨ q.2 api q.1 = NoResult) qs →
     ∃ self', ask api qs self = inr self' ∧
              failure_counts self' !! api = Some (raised api qs) ∧
              api_disabled self' !! api = Some (5 <=? raised api qs) ∧
              (raised api qs = 4 → api_disabled self' !! api = Some false) ∧
              (raised api qs = 5 → api_disabled self' !! api = Some true)) ∧
  (∀ pc net self n r self' evs,
     well_formed self →
     failure_counts self !! api = Some n →
     api_disabled self !! api = Some false →
     net api pc = Raises →
     geocode_postcode pc net self = inr (r, self', evs) →
     api ∈ requests evs →
     failure_counts self' !! api = Some (n + 1) ∧
     api_disabled self' !! api = Some (5 <=? n + 1)).
Proof.
  intros Hapi. split.
  - intros qs self Hn Hd Hqs.
    destruct (ask_streak api qs Hapi Hqs self 0 Hn Hd) as (self' & Hask & Hn' & Hd').
    rewrite Z.add_0_l in Hn', Hd'.
    exists self'. repeat split; try assumption.
    + intros E. rewrite Hd', E. reflexivity.
    + intros E. rewrite Hd', E. reflexivity.
  - intros pc net self n r self' evs Hwf Hn Hd E Hrun.
    cut (wp (geocode_postcode pc) net self (λ _ s evs,
           api ∈ requests evs →
           failure_counts s !! api = Some (n + 1) ∧
           api_disabled s !! api = Some (5 <=? n + 1))).
    { intros H. exact (wp_elim _ _ _ _ _ _ _ H Hrun). }
    clear Hrun. wf_open Hwf; destruct Hapi as [-> | ->];
      cbn in Hn, Hd; simplify_eq.
    all: wp_run; simplify_eq.
    all: intros Hin;
      first [ solve [map_simpl; cbn [orb]; split; reflexivity]
            | exfalso; revert Hin; decide_goal ].
Qed.

(** ** Instances *)

(** A fresh object, postcodes.io finds the postcode: one request, the
    coordinate comes back, Nominatim is preferred next. *)
Example first_call_found :
  geocode_postcode "SW1A 1AA" (λ _ _, Found 51.5010 (-0.1419)) __init__
  = inr (Some (51.5010, -0.1419)%float,
         put_current_api 1 (put_request_count 0 1 __init__),
         [Get 0 "SW1A 1AA"; Sleep 0.1]).
Proof. vm_compute. reflexivity. Qed.

(** A fresh object, postcodes.io raises and Nominatim finds the postcode:
    one failure on the count of postcodes.io, which is preferred next. *)
Example first_call_fallback :
  geocode_postcode "SW1A 1AA"
    (λ api _, if api =? 0 then Raises else Found 51.5 (-0.14)) __init__
  = inr (Some (51.5, -0.14)%float,
         put_current_api 0 (put_request_count 1 1 (put_failure_count 0 1 __init__)),
         [Get 0 "SW1A 1AA"; Sleep 0.7; Get 1 "SW1A 1AA"; Sleep 0.4]).
Proof. vm_compute. reflexivity. Qed.

(** A payload that reports a match and does not convert: the count is
    reset before the conversion raises, so it restarts at 1. *)
Example garbled_restarts_count :
  geocode_postcodes_io "GY1 1AA" (λ _ _, Garbled) (put_failure_count 0 4 __init__)
  = inr (None, put_failure_count 0 1 __init__, [Get 0 "GY1 1AA"]).
Proof. vm_compute. reflexivity. Qed.

(** C1 fails as stated.  Five rows in a row for which both services answer
    that they have no match: every call returns [None], each service has
    been asked five times and has failed five times, with no success and no
    re-enabling in between, and neither is disabled nor has a single failure
    on its count. *)
Lemma five_failures_without_disabling :
  ∃ self' evs,
    run (replicate 5 ("ZZ99 9ZZ", λ _ _, NoResult)) __init__
    = inr ([None; None; None; None; None], self', evs) ∧
    requests evs = [0; 1; 1; 0; 0; 1; 1; 0; 0; 1] ∧
    api_disabled self' !! 0 = Some false ∧
    api_disabled self' !! 1 = Some false ∧
    failure_counts self' !! 0 = Some 0 ∧
    failure_counts self' !! 1 = Some 0 ∧
    api_disabled self' !! 1 ≠ Some true.
Proof.
  do 2 eexists. split; [vm_compute; reflexivity |].
  repeat split; try (vm_compute; reflexivity).
  vm_compute. discriminate.
Qed.

Lemma raising_requests_disable_at_five_witness :
  ∃ self',
    ask 1 (replicate 5 ("ZZ99 9ZZ", λ _ _, Raises)) __init__ = inr self' ∧
    api_disabled self' !! 1 = Some true.
Proof.
  destruct (raising_requests_disable_at_five 1 (or_intror eq_refl)) as [H _].
  destruct (H (replicate 5 ("ZZ99 9ZZ", λ _ _, Raises)) __init__ eq_refl eq_refl)
    as (self' & Hask & _ & _ & _ & H5).
  - repeat constructor.
  - exists self'. split; [exact Hask | apply H5; reflexivity].
Defined.

Lemma rotation_after_success_witness :
  ∃ p, is_api p ∧
       last (requests [Get 0 "SW1A 1AA"; Sleep 0.7; Get 1 "SW1A 1AA"; Sleep 0.4])
       = Some p ∧
       (λ api _, if api =? 0 then Raises else Found 51.5 (-0.14)) p "SW1A 1AA"
       = Found 51.5 (-0.14) ∧
       current_api
         (put_current_api 0 (put_request_count 1 1 (put_failure_count 1 0
            (put_failure_count 0 1 __init__)))) = 1 - p ∧
       current_api
         (put_current_api 0 (put_request_count 1 1 (put_failure_count 1 0
            (put_failure_count 0 1 __init__)))) ≠ p.
Proof.
  apply (rotation_after_success "SW1A 1AA"
           (λ api _, if api =? 0 then Raises else Found 51.5 (-0.14))
           __init__ (51.5, -0.14)%float).
  - apply well_formed_init.
  - vm_compute. reflexivity.
Defined.

Lemma primary_success_skips_fallback_witness :
  ∃ r self' evs,
    geocode_postcode "SW1A 1AA" (λ _ _, Found 51.5010 (-0.1419)) __init__
    = inr (r, self', evs) ∧
    ∃ p, is_api p ∧ head evs = Some (Get p "SW1A 1AA") ∧
         ∀ lat lon, Found 51.5010 (-0.1419) = Found lat lon →
                    r = Some (lat, lon) ∧ requests evs = [p].
Proof.
  apply (primary_success_skips_fallback "SW1A 1AA"
           (λ _ _, Found 51.5010 (-0.1419)) __init__).
  apply well_formed_init.
Defined.

Lemma well_formed_postcodes_io_disabled :
  well_formed (put_api_disabled 0 true (put_failure_count 0 5 __init__)).
Proof.
  split; [left; reflexivity | ..]; apply is_api_cases; eexists; reflexivity.
Qed.

Lemma healthy_api_goes_first_witness :
  ∃ r self' evs,
    geocode_postcode "SW1A 1AA" (λ _ _, Found 51.5010 (-0.1419))
      (put_api_disabled 0 true (put_failure_count 0 5 __init__))
    = inr (r, self', evs) ∧
    head evs = Some (Get 1 "SW1A 1AA") ∧
    head (requests evs) = Some 1.
Proof.
  apply (healthy_api_goes_first "SW1A 1AA" (λ _ _, Found 51.5010 (-0.1419))
           (put_api_disabled 0 true (put_failure_count 0 5 __init__))).
  - apply well_formed_postcodes_io_disabled.
  - reflexivity.
  - reflexivity.
Defined.

Lemma nominatim_pauses_witness :
  [Get 0 "SW1A 1AA"; Sleep 0.7] = [Get 0 "SW1A 1AA"; Sleep 0.7] ∨
  ([Get 0 "SW1A 1AA"; Sleep 0.7] = [] ∧
   ∀ lat lon, Found 51.5 (-0.14) = Found lat lon → [Sleep 0.4] = [Sleep 0.7]).
Proof.
  apply (nominatim_pauses "SW1A 1AA"
           (λ api _, if api =? 0 then Raises else Found 51.5 (-0.14))
           __init__ (Some (51.5, -0.14)%float)
           (put_current_api 0 (put_request_count 1 1 (put_failure_count 1 0
              (put_failure_count 0 1 __init__))))
           [Get 0 "SW1A 1AA"; Sleep 0.7; Get 1 "SW1A 1AA"; Sleep 0.4]
           (well_formed_init)
           ltac:(vm_compute; reflexivity)
           [Get 0 "SW1A 1AA"; Sleep 0.7] "SW1A 1AA" [Sleep 0.4] eq_refl).
Defined.

(** C9 fails as stated.  Two rows, both found at once.  The first call is
    answered by postcodes.io and ends with a pause of 0.1 s; the second call
    starts with the request to Nominatim: nothing comes before it in that
    call, and over the batch only the pause of 0.1 s does. *)
Lemma nominatim_asked_without_pause :
  ∃ self1 self2,
    geocode_postcode "SW1A 1AA" (λ _ _, Found 51.5010 (-0.1419)) __init__
    = inr (Some (51.5010, -0.1419)%float, self1,
           [Get 0 "SW1A 1AA"; Sleep 0.1]) ∧
    geocode_postcode "SW1A 2AA" (λ _ _, Found 51.5010 (-0.1419)) self1
    = inr (Some (51.5010, -0.1419)%float, self2,
           [Get 1 "SW1A 2AA"; Sleep 0.7]) ∧
    paused_before_nominatim 0.7 None [Get 1 "SW1A 2AA"; Sleep 0.7] = false ∧
    paused_before_nominatim 0.7 None
      ([Get 0 "SW1A 1AA"; Sleep 0.1] ++ [Get 1 "SW1A 2AA"; Sleep 0.7]) = false.
Proof.
  do 2 eexists. split; [vm_compute; reflexivity |].
  split; [vm_compute; reflexivity |].
  split; vm_compute; reflexivity.
Qed.

Lemma reachable_postcodes_io_disabled :
  reachable
    (put_request_count 1 5
       (put_api_disabled 0 true (put_failure_count 0 5 __init__))).
Proof.
  exact (run_reachable
           (replicate 5 ("SW1A 1AA", λ api _, if api =? 0 then Raises
                                              else Found 51.5 (-0.14)))
           __init__ reachable_init).
Qed.

Lemma disabled_only_at_threshold_witness :
  ∃ n, failure_counts (put_request_count 1 5
         (put_api_disabled 0 true (put_failure_count 0 5 __init__))) !! 0 = Some n ∧
       5 ≤ n.
Proof.
  apply (disabled_only_at_threshold _ 0 reachable_postcodes_io_disabled).
  - left; reflexivity.
  - reflexivity.
Defined.

Lemma failure_count_at_most_five_witness :
  ∃ n, failure_counts (put_request_count 1 5
       (put_api_disabled 0 true (put_failure_count 0 5 __init__))) !! 0 = Some n ∧
       0 ≤ n ≤ 5 ∧
       (n = 5 → api_disabled (put_request_count 1 5
          (put_api_disabled 0 true (put_failure_count 0 5 __init__))) !! 0 = Some true).
Proof.
  apply (failure_count_at_most_five _ 0 reachable_postcodes_io_disabled).
  left; reflexivity.
Defined.

(** ** Further properties of the class *)

Lemma geocode_garbled api pc net self d :
  is_api api → net api pc = Garbled →
  api_disabled self !! api = Some d →
  geocode api pc net self
  = inr (None,
         put_api_disabled api d
           (put_failure_count api 1 (put_failure_count api 0 self)),
         [Get api pc]).
Proof.
  intros Hapi E Hd.
  cut (wp (geocode api pc) net self (λ r s evs,
         (r, s, evs) =
         (None, put_api_disabled api d
                  (put_failure_count api 1 (put_failure_count api 0 self)),
          [Get api pc]))).
  { intros H. apply wp_intro in H as (r & s & evs & -> & ->). reflexivity. }
  destruct Hapi as [-> | ->]; cbn [geocode Z.eqb].
  - unfold geocode_postcodes_io. apply wp_bind, wp_session_get. rewrite E.
    apply wp_bind, wp_modify. eapply on_exception_wp; [map_lookup .. |].
    change (5 <=? 0 + 1) with false. rewrite orb_false_r. reflexivity.
  - unfold geocode_nominatim. apply wp_bind, wp_session_get. rewrite E.
    apply wp_bind, wp_modify. eapply on_exception_wp; [map_lookup .. |].
    change (5 <=? 0 + 1) with false. rewrite orb_false_r. reflexivity.
Qed.

(** X1.  A request method touches nothing but the health of its own
    service: it sends exactly one request, leaves [current_api],
    [request_counts] and the other service's failure count and flag as they
    were, and never clears a flag that is set. *)
Theorem request_touches_own_health_only api pc net self r self' evs :
  is_api api →
  geocode api pc net self = inr (r, self', evs) →
  evs = [Get api pc] ∧
  current_api self' = current_api self ∧
  request_counts self' = request_counts self ∧
  (∀ k, k ≠ api →
        failure_counts self' !! k = failure_counts self !! k ∧
        api_disabled self' !! k = api_disabled self !! k) ∧
  (api_disabled self !! api = Some true →
   api_disabled self' !! api = Some true).
Proof.
  intros Hapi.
  destruct (net api pc) as [| | | lat lon] eqn:E.
  - destruct (failure_counts self !! api) as [n |] eqn:Hn.
    + destruct (api_disabled self !! api) as [d |] eqn:Hd.
      * rewrite (geocode_raises api pc net self n d Hapi E Hn Hd).
        intros [= <- <- <-]. repeat split; fields;
          try (rewrite lookup_insert_ne by congruence; reflexivity).
        intros [= ->]. apply lookup_insert_eq.
      * destruct Hapi as [-> | ->]; cbn;
          unfold geocode_postcodes_io, geocode_nominatim, bind, session_get,
            on_exception, bind, getitem, set_failure_count, set_api_disabled,
            modify, ret; rewrite E; fields; rewrite Hn; fields;
          rewrite lookup_insert_eq; destruct (5 <=? n + 1);
          intros [= <- <- <-]; repeat split; fields;
          try (rewrite lookup_insert_ne by congruence; reflexivity);
          try (rewrite Hd; discriminate);
          rewrite lookup_insert_eq; reflexivity.
    + destruct Hapi as [-> | ->]; cbn;
        unfold geocode_postcodes_io, geocode_nominatim, bind, session_get,
          on_exception, bind, getitem; rewrite E; fields; rewrite Hn;
        discriminate.
  - rewrite (geocode_no_result api pc net self Hapi E).
    intros [= <- <- <-]. repeat split; auto.
  - destruct (api_disabled self !! api) as [d |] eqn:Hd.
    + rewrite (geocode_garbled api pc net self d Hapi E Hd).
      intros [= <- <- <-]. repeat split; fields;
        try (rewrite !lookup_insert_ne by congruence; reflexivity).
      intros [= ->]. apply lookup_insert_eq.
    + destruct Hapi as [-> | ->]; cbn;
        unfold geocode_postcodes_io, geocode_nominatim, bind, session_get,
          on_exception, bind, getitem, set_failure_count, set_api_disabled,
          modify, ret; rewrite E; fields; rewrite !lookup_insert_eq;
        change (5 <=? 0 + 1) with false; fields;
        intros [= <- <- <-]; repeat split; fields;
        try (rewrite !lookup_insert_ne by congruence; reflexivity);
        rewrite Hd; discriminate.
  - rewrite (geocode_found api pc net self lat lon Hapi E).
    intros [= <- <- <-]. repeat split; fields;
      try (rewrite lookup_insert_ne by congruence; reflexivity).
    auto.
Qed.

(** X2.  Payloads that report a match and do not convert never disable a
    service: after any positive number of them in a row the failure count
    is 1 and the flag is what it was, because each one resets the count
    before the conversion raises. *)
Theorem garbled_answers_never_disable api qs self d :
  is_api api →
  api_disabled self !! api = Some d →
  qs ≠ [] →
  Forall (λ q : string * network, q.2 api q.1 = Garbled) qs →
  ∃ self', ask api qs self = inr self' ∧
           failure_counts self' !! api = Some 1 ∧
           api_disabled self' !! api = Some d.
Proof.
  intros Hapi Hd Hne Hqs. revert self Hd Hne.
  induction Hqs as [| [pc net] qs E Hqs IH]; intros self Hd Hne; [done |].
  cbn [ask fst snd] in *. rewrite (geocode_garbled api pc net self d Hapi E Hd).
  destruct qs as [| q qs'].
  - eexists. split; [reflexivity |]. split; map_lookup.
  - apply IH; [map_lookup | discriminate].
Qed.

(** X3.  A call that finds nothing hands the next call to the other
    service: [current_api] becomes [1 - current_api], [request_counts] is
    unchanged, and the call ends on a request, without a pause. *)
Theorem total_failure_rotates pc net self self' evs :
  well_formed self →
  geocode_postcode pc net self = inr (None, self', evs) →
  current_api self' = 1 - current_api self ∧
  request_counts self' = request_counts self ∧
  ∃ p, last evs = Some (Get p pc).
Proof.
  intros Hwf Hrun.
  cut (wp (geocode_postcode pc) net self (λ r s evs,
         r = None →
         current_api s = 1 - current_api self ∧
         request_counts s = request_counts self ∧
         ∃ p, last evs = Some (Get p pc))).
  { intros H. exact (wp_elim _ _ _ _ _ _ _ H Hrun eq_refl). }
  clear Hrun. wf_open Hwf.
  all: wp_run.
  all: intros [=]; fields; repeat split; eexists; reflexivity.
Qed.

(** X4.  A call that returns a coordinate adds one to the count of the
    service that found it, leaves the other count alone, and ends with a
    pause: 0.1 s after postcodes.io, 0.7 s after Nominatim asked first,
    0.4 s after Nominatim asked second. *)
Theorem success_is_counted_and_paused pc net self c self' evs :
  well_formed self →
  geocode_postcode pc net self = inr (Some c, self', evs) →
  ∃ p n t, is_api p ∧
           last (requests evs) = Some p ∧
           request_counts self !! p = Some n ∧
           request_counts self' !! p = Some (n + 1) ∧
           request_counts self' !! (1 - p) = request_counts self !! (1 - p) ∧
           last evs = Some (Sleep t) ∧
           ((p = 0 ∧ t = 0.1%float) ∨
            (requests evs = [1] ∧ t = 0.7%float) ∨
            (requests evs = [0; 1] ∧ t = 0.4%float)).
Proof.
  intros Hwf Hrun.
  cut (wp (geocode_postcode pc) net self (λ r s evs,
         is_Some r →
         ∃ p n t, is_api p ∧
                  last (requests evs) = Some p ∧
                  request_counts self !! p = Some n ∧
                  request_counts s !! p = Some (n + 1) ∧
                  request_counts s !! (1 - p) = request_counts self !! (1 - p) ∧
                  last evs = Some (Sleep t) ∧
                  ((p = 0 ∧ t = 0.1%float) ∨
                   (requests evs = [1] ∧ t = 0.7%float) ∨
                   (requests evs = [0; 1] ∧ t = 0.4%float)))).
  { intros H. exact (wp_elim _ _ _ _ _ _ _ H Hrun (mk_is_Some _ _ eq_refl)). }
  clear Hrun. wf_open Hwf.
  all: wp_run.
  all: intros [? [=]].
  all: first
    [ exists 0; do 2 eexists; (split; [left; reflexivity |]);
      (split; [reflexivity |]); (split; [map_lookup |]);
      (split; [map_lookup |]); (split; [map_simpl; reflexivity |]);
      (split; [reflexivity |]); left; split; reflexivity
    | exists 1; do 2 eexists; (split; [right; reflexivity |]);
      (split; [reflexivity |]); (split; [map_lookup |]);
      (split; [map_lookup |]); (split; [map_simpl; reflexivity |]);
      (split; [reflexivity |]);
      first [ right; left; split; reflexivity
            | right; right; split; reflexivity ] ].
Qed.


(** The requests of a call: one or two, to the services 0 and 1, each for
    the postcode of the call. *)
Lemma geocode_postcode_events pc net self :
  well_formed self →
  wp (geocode_postcode pc) net self (λ _ _ evs,
    Forall (λ e, match e with
                 | Get api pc' => is_api api ∧ pc' = pc
                 | Sleep _ => True
                 end) evs ∧
    (1 ≤ length (requests evs) ≤ 2)%nat ∧
    (length evs ≤ 4)%nat).
Proof.
  intros Hwf. wf_open Hwf.
  all: wp_run.
  all: split; [| cbn; lia].
  all: repeat first [apply Forall_nil_2 | apply Forall_cons_2].
  all: first [ exact I
             | split; [first [left; reflexivity | right; reflexivity]
                      | reflexivity] ].
Qed.

(** X5.  A call sends one or two requests, only to the services 0 and 1
    and only for the postcode it was given, and produces at most four
    events. *)
Theorem requests_of_a_call pc net self r self' evs :
  well_formed self →
  geocode_postcode pc net self = inr (r, self', evs) →
  Forall (λ e, match e with
               | Get api pc' => is_api api ∧ pc' = pc
               | Sleep _ => True
               end) evs ∧
  (1 ≤ length (requests evs) ≤ 2)%nat ∧
  (length evs ≤ 4)%nat.
Proof.
  intros Hwf Hrun.
  exact (wp_elim _ _ _ _ _ _ _ (geocode_postcode_events pc net self Hwf) Hrun).
Qed.



Lemma geocode_postcode_returns pc net self :
  well_formed self → health_ok self 0 → health_ok self 1 →
  ∃ r self' evs,
    geocode_postcode pc net self = inr (r, self', evs) ∧
    well_formed self' ∧ health_ok self' 0 ∧ health_ok self' 1.
Proof.
  intros Hwf H0 H1. apply wp_intro.
  exact (geocode_postcode_invariant pc net self Hwf H0 H1).
Qed.

(** X7.  From a reachable object a batch of any length goes through
    without raising, gives one result per row, and ends in a reachable
    object. *)
Theorem run_never_raises rows self :
  reachable self →
  ∃ rs self' evs,
    run rows self = inr (rs, self', evs) ∧
    length rs = length rows ∧ reachable self'.
Proof.
  revert self. induction rows as [| [pc net] rows IH]; intros self Hreach.
  - exists [], self, []. auto.
  - destruct (reachable_invariant self Hreach) as (Hwf & H0 & H1).
    destruct (geocode_postcode_returns pc net self Hwf H0 H1)
      as (r & self1 & evs1 & E & _).
    destruct (IH self1 (reachable_call _ _ _ _ _ _ Hreach E))
      as (rs & self2 & evs2 & E2 & Hlen & Hreach2).
    exists (r :: rs), self2, (evs1 ++ evs2). cbn [run]. rewrite E, E2.
    cbn [length]. auto.
Qed.

(** What one call adds to the two counters of [request_counts]. *)
Lemma geocode_postcode_usage pc net self a b :
  well_formed self →
  request_counts self !! 0 = Some a →
  request_counts self !! 1 = Some b →
  wp (geocode_postcode pc) net self (λ r self' _,
    well_formed self' ∧
    ∃ a' b', request_counts self' !! 0 = Some a' ∧
             request_counts self' !! 1 = Some b' ∧
             a' + b' = a + b + match r with Some _ => 1 | None => 0 end).
Proof.
  intros Hwf Ha Hb. wf_open Hwf; cbn in Ha, Hb; simplify_eq.
  all: wp_run.
  all: split; [solve_well_formed |].
  all: do 2 eexists; (split; [map_lookup |]); (split; [map_lookup |]); lia.
Qed.

Lemma run_usage rows : ∀ self a b rs self' evs,
  well_formed self →
  request_counts self !! 0 = Some a →
  request_counts self !! 1 = Some b →
  run rows self = inr (rs, self', evs) →
  ∃ a' b', request_counts self' !! 0 = Some a' ∧
           request_counts self' !! 1 = Some b' ∧
           a' + b' = a + b + Z.of_nat (length (filter is_Some rs)).
Proof.
  induction rows as [| [pc net] rows IH]; intros self a b rs self' evs Hwf Ha Hb.
  - intros [= <- <- <-]. exists a, b. cbn. split; [done |]. split; [done | lia].
  - cbn [run].
    pose proof (geocode_postcode_usage pc net self a b Hwf Ha Hb) as Hcall.
    apply wp_intro in Hcall
      as (r & self1 & evs1 & E & Hwf1 & a1 & b1 & Ha1 & Hb1 & Hsum).
    rewrite E.
    destruct (run rows self1) as [e | [[rs2 self2] evs2]] eqn:E2; [done |].
    intros [= <- <- <-].
    destruct (IH _ _ _ _ _ _ Hwf1 Ha1 Hb1 E2) as (a' & b' & Ha' & Hb' & Hsum').
    exists a', b'. split; [done |]. split; [done |].
    rewrite filter_cons. destruct r; [rewrite decide_True by eauto
                                     | rewrite decide_False by (intros [? [=]])];
      cbn [length]; lia.
Qed.

(** X8.  After a batch on a fresh object the two entries of
    [request_counts] add up to the number of rows that got a coordinate:
    the counters count successes, not requests. *)
Theorem usage_equals_successes rows rs self' evs :
  run rows __init__ = inr (rs, self', evs) →
  ∃ a b, request_counts self' !! 0 = Some a ∧
         request_counts self' !! 1 = Some b ∧
         a + b = Z.of_nat (length (filter is_Some rs)) ∧
         (length (filter is_Some rs) ≤ length rows)%nat.
Proof.
  intros E.
  destruct (run_usage rows __init__ 0 0 rs self' evs well_formed_init
              eq_refl eq_refl E) as (a & b & Ha & Hb & Hsum).
  exists a, b. split; [exact Ha |]. split; [exact Hb |]. split; [lia |].
  destruct (run_never_raises rows __init__ reachable_init)
    as (rs' & s & evs' & E' & Hlen & _).
  rewrite E in E'. injection E' as <- <- <-.
  rewrite <- Hlen. apply length_filter.
Qed.

Lemma requests_app evs1 evs2 :
  requests (evs1 ++ evs2) = requests evs1 ++ requests evs2.
Proof.
  induction evs1 as [| [api pc | t] evs1 IH]; cbn; [done | | done].
  rewrite IH. reflexivity.
Qed.

(** A call on an object with both services enabled, when the preferred
    one finds the postcode. *)
Lemma geocode_postcode_found_first pc net self n lat lon :
  well_formed self →
  api_disabled self !! 0 = Some false →
  api_disabled self !! 1 = Some false →
  request_counts self !! current_api self = Some n →
  net (current_api self) pc = Found lat lon →
  geocode_postcode pc net self
  = inr (Some (lat, lon),
         put_current_api (1 - current_api self)
           (put_request_count (current_api self) (n + 1)
              (put_failure_count (current_api self) 0 self)),
         [Get (current_api self) pc;
          Sleep (if current_api self =? 0 then 0.1 else 0.7)]).
Proof.
  intros Hwf H0 H1 Hn E.
  cut (wp (geocode_postcode pc) net self (λ r s evs,
         (r, s, evs) =
         (Some (lat, lon),
          put_current_api (1 - current_api self)
            (put_request_count (current_api self) (n + 1)
               (put_failure_count (current_api self) 0 self)),
          [Get (current_api self) pc;
           Sleep (if current_api self =? 0 then 0.1 else 0.7)]))).
  { intros H. apply wp_intro in H as (r & s & evs & -> & ->). reflexivity. }
  wf_open Hwf; cbn in H0, H1, Hn, E; simplify_eq.
  all: wp_run; simplify_eq; reflexivity.
Qed.

Lemma run_all_found rows : ∀ self a b,
  well_formed self →
  api_disabled self !! 0 = Some false →
  api_disabled self !! 1 = Some false →
  request_counts self !! current_api self = Some a →
  request_counts self !! (1 - current_api self) = Some b →
  Forall (λ row : string * network,
            ∀ api, is_api api → ∃ lat lon, row.2 api row.1 = Found lat lon) rows →
  ∃ rs self' evs,
    run rows self = inr (rs, self', evs) ∧
    Forall is_Some rs ∧
    requests evs = turns (current_api self) (length rows) ∧
    request_counts self' !! current_api self
    = Some (a + Z.of_nat (Nat.div2 (S (length rows)))) ∧
    request_counts self' !! (1 - current_api self)
    = Some (b + Z.of_nat (Nat.div2 (length rows))).
Proof.
  induction rows as [| [pc net] rows IH]; intros self a b Hwf H0 H1 Ha Hb Hrows.
  - exists [], self, []. cbn. rewrite !Z.add_0_r. auto.
  - apply Forall_cons in Hrows as [Hrow Hrows]. cbn [fst snd] in Hrow.
    pose proof (wf_current_api _ Hwf) as Hc.
    destruct (Hrow _ Hc) as (lat & lon & E).
    pose proof (geocode_postcode_found_first pc net self a lat lon
                  Hwf H0 H1 Ha E) as Ecall.
    set (self1 := put_current_api (1 - current_api self)
                    (put_request_count (current_api self) (a + 1)
                       (put_failure_count (current_api self) 0 self))) in *.
    assert (Hne : current_api self ≠ 1 - current_api self) by lia.
    assert (Hback : 1 - current_api self1 = current_api self)
      by (unfold self1; fields; lia).
    assert (Hwf1 : well_formed self1).
    { destruct Hwf as [_ Hr Hf Hd]. split; unfold self1; fields.
      - destruct Hc as [-> | ->]; [right | left]; reflexivity.
      - intros k Hk. destruct (decide (current_api self = k)) as [-> | ?];
          [rewrite lookup_insert_eq; eauto
          | rewrite lookup_insert_ne by done; auto].
      - intros k Hk. destruct (decide (current_api self = k)) as [-> | ?];
          [rewrite lookup_insert_eq; eauto
          | rewrite lookup_insert_ne by done; auto].
      - exact Hd. }
    destruct (IH self1 b (a + 1) Hwf1 H0 H1) as (rs & self2 & evs2 & E2 & Hrs & Hreq & Hb' & Ha').
    + unfold self1; fields. rewrite lookup_insert_ne by done. exact Hb.
    + rewrite Hback. unfold self1; fields. apply lookup_insert_eq.
    + exact Hrows.
    + exists (Some (lat, lon) :: rs), self2,
        ([Get (current_api self) pc;
          Sleep (if current_api self =? 0 then 0.1 else 0.7)] ++ evs2).
      cbn [run]. rewrite Ecall, E2. split; [reflexivity |].
      split; [constructor; eauto |].
      split; [cbn [app requests length turns]; rewrite Hreq; reflexivity |].
      rewrite Hback in Ha'. cbn [length].
      change (current_api self1) with (1 - current_api self) in Hb'.
      split.
      * rewrite Ha'. f_equal. cbn [Nat.div2]. lia.
      * rewrite Hb'. reflexivity.
Qed.

(** X9.  When every service finds every postcode, a batch on a fresh
    object sends one request per row, to the services 0, 1, 0, 1, ... in
    turn, every row gets a coordinate, and the counts of the two services
    are the two halves of the number of rows. *)
Theorem all_found_alternates rows :
  Forall (λ row : string * network,
            ∀ api, is_api api → ∃ lat lon, row.2 api row.1 = Found lat lon) rows →
  ∃ rs self' evs,
    run rows __init__ = inr (rs, self', evs) ∧
    Forall is_Some rs ∧
    requests evs = turns 0 (length rows) ∧
    request_counts self' !! 0 = Some (Z.of_nat (Nat.div2 (S (length rows)))) ∧
    request_counts self' !! 1 = Some (Z.of_nat (Nat.div2 (length rows))).
Proof.
  intros Hrows.
  exact (run_all_found rows __init__ 0 0 well_formed_init
           eq_refl eq_refl eq_refl eq_refl Hrows).
Qed.

(** One call adds at most one failure to a count. *)
Lemma geocode_postcode_failures_step pc net self api n :
  well_formed self → health_ok self 0 → health_ok self 1 →
  is_api api → failure_counts self !! api = Some n →
  wp (geocode_postcode pc) net self (λ _ self' _,
    ∃ n', failure_counts self' !! api = Some n' ∧ n' ≤ n + 1).
Proof.
  intros Hwf (n0 & e0 & Hn0 & He0 & B0 & E0) (n1 & e1 & Hn1 & He1 & B1 & E1)
    Hapi Hn.
  wf_open Hwf; destruct Hapi as [-> | ->];
    cbn in Hn0, He0, Hn1, He1, Hn; simplify_eq.
  all: wp_run.
  all: eexists; (split; [map_lookup | lia]).
Qed.

Lemma run_failures rows : ∀ self api n rs self' evs,
  reachable self → is_api api →
  failure_counts self !! api = Some n →
  run rows self = inr (rs, self', evs) →
  ∃ n', failure_counts self' !! api = Some n' ∧
        n' ≤ n + Z.of_nat (length rows).
Proof.
  induction rows as [| [pc net] rows IH];
    intros self api n rs self' evs Hreach Hapi Hn.
  - intros [= <- <- <-]. exists n. split; [done | cbn; lia].
  - cbn [run]. destruct (reachable_invariant self Hreach) as (Hwf & H0 & H1).
    pose proof (geocode_postcode_failures_step pc net self api n
                  Hwf H0 H1 Hapi Hn) as Hcall.
    apply wp_intro in Hcall as (r & self1 & evs1 & E & n1 & Hn1 & Hle).
    rewrite E.
    destruct (run rows self1) as [e | [[rs2 self2] evs2]] eqn:E2; [done |].
    intros [= <- <- <-].
    destruct (IH _ _ _ _ _ _ (reachable_call _ _ _ _ _ _ Hreach E) Hapi Hn1 E2)
      as (n' & Hn' & Hle').
    exists n'. split; [done |]. cbn [length]. lia.
Qed.

(** X10.  After a batch on a fresh object the failure count of a service
    is at most the number of rows, so fewer than five rows disable
    nothing. *)
Theorem short_runs_disable_nothing rows rs self' evs api :
  is_api api →
  run rows __init__ = inr (rs, self', evs) →
  ∃ n, failure_counts self' !! api = Some n ∧
       0 ≤ n ≤ Z.of_nat (length rows) ∧
       ((length rows < 5)%nat → api_disabled self' !! api = Some false).
Proof.
  intros Hapi E.
  assert (Hinit : failure_counts __init__ !! api = Some 0)
    by (destruct Hapi as [-> | ->]; reflexivity).
  destruct (run_failures rows __init__ api 0 rs self' evs
              reachable_init Hapi Hinit E) as (n & Hn & Hle).
  pose proof (run_reachable rows __init__ reachable_init) as Hreach.
  rewrite E in Hreach.
  destruct (reachable_invariant self' Hreach) as (_ & H0 & H1).
  assert (Hok : health_ok self' api) by (destruct Hapi as [-> | ->]; assumption).
  destruct Hok as (m & d & Hm & Hd & Hb & Hmd).
  rewrite Hn in Hm. injection Hm as <-.
  exists n. split; [done |]. split; [lia |].
  intros Hshort. rewrite Hd. f_equal.
  destruct d; [| done]. assert (n = 5) by (apply Hmd; reflexivity). lia.
Qed.

(** ** Properties of the batch driver *)

Lemma remove_spaces_app a b :
  remove_spaces (a +:+ b) = remove_spaces a +:+ remove_spaces b.
Proof.
  induction a as [| c a IH]; [reflexivity |].
  change (String c a +:+ b) with (String c (a +:+ b)).
  cbn [remove_spaces].
  destruct (Ascii.eqb c (Ascii.ascii_of_nat 32)); rewrite IH; reflexivity.
Qed.

(** X15.  The address requested from postcodes.io does not depend on the
    spaces of the postcode: a space anywhere changes nothing, removing
    spaces twice is removing them once, and what is appended to the address
    is no longer than the postcode and has no space in it. *)
Theorem postcodes_io_url_ignores_spaces a b :
  postcodes_io_url (a +:+ " " +:+ b) = postcodes_io_url (a +:+ b) ∧
  remove_spaces (remove_spaces a) = remove_spaces a ∧
  (String.length (remove_spaces a) ≤ String.length a)%nat ∧
  ∀ i, String.get i (remove_spaces a) ≠ Some (Ascii.ascii_of_nat 32).
Proof.
  split; [| split; [| split]].
  - unfold postcodes_io_url. rewrite !remove_spaces_app. reflexivity.
  - induction a as [| c a IH]; [reflexivity |]. cbn.
    destruct (Ascii.eqb c (Ascii.ascii_of_nat 32)) eqn:E; [exact IH |].
    cbn. rewrite E, IH. reflexivity.
  - induction a as [| c a IH]; [reflexivity |]. cbn.
    destruct (Ascii.eqb c (Ascii.ascii_of_nat 32)); cbn; lia.
  - induction a as [| c a IH]; intros i; [destruct i; discriminate |]. cbn.
    destruct (Ascii.eqb_spec c (Ascii.ascii_of_nat 32)) as [| Hc]; [apply IH |].
    destruct i as [| i]; cbn; [congruence | apply IH].
Qed.

Section process_postcodes_facts.

Variables strip lower : string → string.

(** X11.  Rows whose postcode is empty or reads [nan] cost nothing: the
    loop goes through them without a request, without touching the geocoder
    or the counter, and without a temporary save, whatever their index;
    each gets the three blank columns. *)
Theorem skipped_rows_are_free rows : ∀ index b,
  Forall (λ row : string * network, skipped lower (strip row.1) = true) rows →
  process_rows strip lower index rows b
  = inr (Batch (the_geocoder b) (successful b)
               (frame b ++ replicate (length rows) untouched)
               (saved b) (seen b)).
Proof.
  induction rows as [| [cell net] rows IH]; intros index b Hrows.
  - cbn. rewrite app_nil_r. destruct b; reflexivity.
  - apply Forall_cons in Hrows as [Hrow Hrows]. cbn [fst] in Hrow.
    cbn [process_rows]. unfold process_row. rewrite Hrow.
    rewrite IH by exact Hrows. cbn [the_geocoder successful frame saved seen].
    rewrite <- app_assoc. reflexivity.
Qed.









Lemma process_rows_seen rows : ∀ index b b',
  reachable (the_geocoder b) →
  process_rows strip lower index rows b = inr b' →
  reachable (the_geocoder b') ∧
  ∃ evs, seen b' = seen b ++ evs ∧
         Forall (λ e, match e with
                      | Get api pc =>
                          is_api api ∧
                          ∃ row : string * network,
                            row ∈ rows ∧ pc = strip row.1 ∧
                            skipped lower pc = false
                      | Sleep _ => True
                      end) evs.
Proof.
  induction rows as [| [cell net] rows IH]; intros index b b' Hreach.
  - intros [= <-]. split; [exact Hreach |]. exists []. rewrite app_nil_r. auto.
  - cbn [process_rows]. unfold process_row.
    destruct (skipped lower (strip cell)) eqn:Hskip.
    + intros E. apply IH in E as (Hreach' & evs & Hseen & Hevs);
        [| exact Hreach]. split; [exact Hreach' |].
      exists evs. split; [exact Hseen |].
      eapply Forall_impl; [exact Hevs |]. intros [api pc | t]; [| done].
      intros (Hapi & row & Hrow & Hpc). split; [exact Hapi |].
      exists row. split; [right; exact Hrow | exact Hpc].
    + destruct (geocode_postcode (strip cell) net (the_geocoder b))
        as [e | [[r self1] evs1]] eqn:E1; [discriminate |].
      destruct (reachable_invariant _ Hreach) as (Hwf & _ & _).
      pose proof (wp_elim _ _ _ _ _ _ _
                    (geocode_postcode_events (strip cell) net _ Hwf) E1)
        as (Hevs1 & _ & _).
      intros E. apply IH in E as (Hreach' & evs & Hseen & Hevs);
        [| exact (reachable_call _ _ _ _ _ _ Hreach E1)].
      split; [exact Hreach' |]. cbn [seen] in Hseen.
      exists (evs1 ++ evs). split; [rewrite Hseen, app_assoc; reflexivity |].
      apply Forall_app. split.
      * eapply Forall_impl; [exact Hevs1 |]. intros [api pc | t]; [| done].
        intros [Hapi ->]. split; [exact Hapi |].
        exists (cell, net). split; [left | auto].
      * eapply Forall_impl; [exact Hevs |]. intros [api pc | t]; [| done].
        intros (Hapi & row & Hrow & Hpc). split; [exact Hapi |].
        exists row. split; [right; exact Hrow | exact Hpc].
Qed.

(** X16.  Every request of the loop goes to service 0 or 1 and is for the
    stripped postcode of a row of the table that line 193 does not skip. *)
Theorem requests_only_for_kept_postcodes rows b :
  process_rows strip lower 0 rows fresh_batch = inr b →
  Forall (λ e, match e with
               | Get api pc =>
                   is_api api ∧
                   ∃ row : string * network,
                     row ∈ rows ∧ pc = strip row.1 ∧
                     skipped lower pc = false
               | Sleep _ => True
               end) (seen b).
Proof.
  intros E.
  destruct (process_rows_seen rows 0 fresh_batch b reachable_init E)
    as (_ & evs & Hseen & Hevs).
  rewrite Hseen. exact Hevs.
Qed.

End process_postcodes_facts.

(** ** Instances of the further properties *)

Lemma request_touches_own_health_only_witness :
  current_api (put_failure_count 1 1 __init__) = current_api __init__ ∧
  request_counts (put_failure_count 1 1 __init__) = request_counts __init__.
Proof.
  pose proof (request_touches_own_health_only 1 "SW1A 1AA" (λ _ _, Raises)
                __init__ None (put_failure_count 1 1 __init__)
                [Get 1 "SW1A 1AA"] (or_intror eq_refl)
                ltac:(vm_compute; reflexivity)) as (_ & Hc & Hr & _).
  split; assumption.
Defined.

Lemma garbled_answers_never_disable_witness :
  ∃ self',
    ask 0 (replicate 7 ("GY1 1AA", λ _ _, Garbled))
      (put_failure_count 0 4 __init__) = inr self' ∧
    failure_counts self' !! 0 = Some 1 ∧
    api_disabled self' !! 0 = Some false.
Proof.
  apply (garbled_answers_never_disable 0
           (replicate 7 ("GY1 1AA", λ _ _, Garbled))
           (put_failure_count 0 4 __init__) false).
  - left; reflexivity.
  - reflexivity.
  - discriminate.
  - repeat constructor.
Defined.

Lemma total_failure_rotates_witness :
  current_api (put_current_api 1 __init__) = 1 - current_api __init__ ∧
  request_counts (put_current_api 1 __init__) = request_counts __init__ ∧
  ∃ p, last [Get 0 "ZZ99 9ZZ"; Sleep 0.7; Get 1 "ZZ99 9ZZ"]
       = Some (Get p "ZZ99 9ZZ").
Proof.
  apply (total_failure_rotates "ZZ99 9ZZ" (λ _ _, NoResult) __init__
           (put_current_api 1 __init__)
           [Get 0 "ZZ99 9ZZ"; Sleep 0.7; Get 1 "ZZ99 9ZZ"]).
  - apply well_formed_init.
  - vm_compute. reflexivity.
Defined.

Lemma success_is_counted_and_paused_witness :
  ∃ p n t, is_api p ∧
    last (requests [Get 0 "SW1A 1AA"; Sleep 0.7; Get 1 "SW1A 1AA"; Sleep 0.4])
    = Some p ∧
    request_counts __init__ !! p = Some n ∧
    request_counts
      (put_current_api 0 (put_request_count 1 1 (put_failure_count 0 1 __init__)))
      !! p = Some (n + 1) ∧
    request_counts
      (put_current_api 0 (put_request_count 1 1 (put_failure_count 0 1 __init__)))
      !! (1 - p) = request_counts __init__ !! (1 - p) ∧
    last [Get 0 "SW1A 1AA"; Sleep 0.7; Get 1 "SW1A 1AA"; Sleep 0.4]
    = Some (Sleep t) ∧
    ((p = 0 ∧ t = 0.1%float) ∨
     (requests [Get 0 "SW1A 1AA"; Sleep 0.7; Get 1 "SW1A 1AA"; Sleep 0.4] = [1]
      ∧ t = 0.7%float) ∨
     (requests [Get 0 "SW1A 1AA"; Sleep 0.7; Get 1 "SW1A 1AA"; Sleep 0.4]
      = [0; 1] ∧ t = 0.4%float)).
Proof.
  apply (success_is_counted_and_paused "SW1A 1AA"
           (λ api _, if api =? 0 then Raises else Found 51.5 (-0.14))
           __init__ (51.5, -0.14)%float).
  - apply well_formed_init.
  - vm_compute. reflexivity.
Defined.

Lemma requests_of_a_call_witness :
  Forall (λ e, match e with
               | Get api pc' => is_api api ∧ pc' = "ZZ99 9ZZ"
               | Sleep _ => True
               end) [Get 0 "ZZ99 9ZZ"; Sleep 0.7; Get 1 "ZZ99 9ZZ"] ∧
  (1 ≤ length (requests [Get 0 "ZZ99 9ZZ"; Sleep 0.7; Get 1 "ZZ99 9ZZ"]) ≤ 2)%nat ∧
  (length [Get 0 "ZZ99 9ZZ"; Sleep 0.7; Get 1 "ZZ99 9ZZ"] ≤ 4)%nat.
Proof.
  apply (requests_of_a_call "ZZ99 9ZZ" (λ _ _, NoResult) __init__ None
           (put_current_api 1 __init__)).
  - apply well_formed_init.
  - vm_compute. reflexivity.
Defined.


Lemma run_never_raises_witness :
  ∃ rs self' evs,
    run (replicate 12 ("ZZ99 9ZZ", λ _ _, Raises)) __init__
    = inr (rs, self', evs) ∧
    length rs = length (replicate 12 ("ZZ99 9ZZ", λ _ _ : Z, Raises)) ∧
    reachable self'.
Proof.
  apply (run_never_raises (replicate 12 ("ZZ99 9ZZ", λ _ _, Raises)) __init__).
  apply reachable_init.
Defined.

Lemma usage_equals_successes_witness :
  ∃ a b,
    request_counts (put_request_count 1 1 __init__) !! 0 = Some a ∧
    request_counts (put_request_count 1 1 __init__) !! 1 = Some b ∧
    a + b = Z.of_nat (length (filter is_Some
              [None; Some (51.5, -0.14)%float])) ∧
    (length (filter is_Some [None; Some (51.5, -0.14)%float]) ≤ 2)%nat.
Proof.
  apply (usage_equals_successes
           [("ZZ99 9ZZ", λ api _, if api =? 0 then NoResult else Raises);
            ("SW1A 1AA", λ _ _, Found 51.5 (-0.14))]
           [None; Some (51.5, -0.14)%float]
           (put_request_count 1 1 __init__)
           [Get 0 "ZZ99 9ZZ"; Sleep 0.7; Get 1 "ZZ99 9ZZ";
            Get 1 "SW1A 1AA"; Sleep 0.7]).
  vm_compute. reflexivity.
Defined.

Lemma all_found_alternates_witness :
  ∃ rs self' evs,
    run (replicate 5 ("SW1A 1AA", λ _ _, Found 51.5010 (-0.1419))) __init__
    = inr (rs, self', evs) ∧
    Forall is_Some rs ∧
    requests evs = [0; 1; 0; 1; 0] ∧
    request_counts self' !! 0 = Some 3 ∧
    request_counts self' !! 1 = Some 2.
Proof.
  apply (all_found_alternates
           (replicate 5 ("SW1A 1AA", λ _ _, Found 51.5010 (-0.1419)))).
  repeat constructor; eauto.
Defined.

Lemma short_runs_disable_nothing_witness :
  ∃ n, failure_counts (put_failure_count 1 4 __init__) !! 1 = Some n ∧
       0 ≤ n ≤ 4 ∧
       ((4 < 5)%nat →
        api_disabled (put_failure_count 1 4 __init__) !! 1 = Some false).
Proof.
  apply (short_runs_disable_nothing
           (replicate 4 ("ZZ99 9ZZ", λ api _, if api =? 0 then NoResult
                                              else Raises))
           [None; None; None; None]
           (put_failure_count 1 4 __init__)
           [Get 0 "ZZ99 9ZZ"; Sleep 0.7; Get 1 "ZZ99 9ZZ";
            Get 1 "ZZ99 9ZZ"; Get 0 "ZZ99 9ZZ";
            Get 0 "ZZ99 9ZZ"; Sleep 0.7; Get 1 "ZZ99 9ZZ";
            Get 1 "ZZ99 9ZZ"; Get 0 "ZZ99 9ZZ"] 1).
  - right; reflexivity.
  - vm_compute. reflexivity.
Defined.

Lemma skipped_rows_are_free_witness :
  process_rows (λ s, s) (λ s, s) 49
    [("", λ _ _, Found 51.5010 (-0.1419)); ("nan", λ _ _, Raises)] fresh_batch
  = inr (Batch __init__ 0 [untouched; untouched] [] []).
Proof.
  apply (skipped_rows_are_free (λ s, s) (λ s, s)
           [("", λ _ _, Found 51.5010 (-0.1419)); ("nan", λ _ _, Raises)]
           49 fresh_batch).
  repeat constructor.
Defined.


Lemma requests_only_for_kept_postcodes_witness :
  Forall (λ e, match e with
               | Get api pc =>
                   is_api api ∧
                   ∃ row : string * network,
                     row ∈ [("", λ _ _, Raises);
                            ("SW1A 1AA", λ _ _, Found 51.5010 (-0.1419))] ∧
                     pc = row.1 ∧ skipped (λ s, s) pc = false
               | Sleep _ => True
               end) [Get 0 "SW1A 1AA"; Sleep 0.1].
Proof.
  apply (requests_only_for_kept_postcodes (λ s, s) (λ s, s)
           [("", λ _ _, Raises); ("SW1A 1AA", λ _ _, Found 51.5010 (-0.1419))]
           (Batch (put_current_api 1 (put_request_count 0 1 __init__)) 1
              [untouched; Columns (Some 51.5010%float) (Some (-0.1419)%float) true]
              [] [Get 0 "SW1A 1AA"; Sleep 0.1])).
  vm_compute. reflexivity.
Defined.

(** ** A disabled service stays out *)

(** A call with one service disabled and the other one not raising. *)
Lemma geocode_postcode_one_disabled pc net self api :
  well_formed self → is_api api →
  api_disabled self !! api = Some true →
  api_disabled self !! (1 - api) = Some false →
  net (1 - api) pc ≠ Raises →
  wp (geocode_postcode pc) net self (λ _ self' evs,
    well_formed self' ∧
    api_disabled self' !! api = Some true ∧
    api_disabled self' !! (1 - api) = Some false ∧
    requests evs = [1 - api]).
Proof.
  intros Hwf Hapi Hd Hother Hnet.
  wf_open Hwf; destruct Hapi as [-> | ->];
    cbn in Hd; change (1 - 0) with 1 in *; change (1 - 1) with 0 in *;
    simplify_eq.
  all: wp_run; simplify_eq.
  all: split; [solve_well_formed |].
  all: split; [map_lookup |]; split; [map_lookup | reflexivity].
Qed.

(** X17.  A disabled service is not disabled for a time but for as long
    as the other service does not raise: over any number of calls in which
    the enabled service never raises, every call sends its single request to
    the enabled service, and the disabled one stays disabled and is never
    asked. *)
Theorem disabled_service_stays_out rows : ∀ self api,
  well_formed self → is_api api →
  api_disabled self !! api = Some true →
  api_disabled self !! (1 - api) = Some false →
  Forall (λ row : string * network, row.2 (1 - api) row.1 ≠ Raises) rows →
  ∃ rs self' evs,
    run rows self = inr (rs, self', evs) ∧
    requests evs = replicate (length rows) (1 - api) ∧
    api_disabled self' !! api = Some true ∧
    api_disabled self' !! (1 - api) = Some false.
Proof.
  induction rows as [| [pc net] rows IH]; intros self api Hwf Hapi Hd Hother Hrows.
  - exists [], self, []. auto.
  - apply Forall_cons in Hrows as [Hrow Hrows]. cbn [fst snd] in Hrow.
    pose proof (geocode_postcode_one_disabled pc net self api
                  Hwf Hapi Hd Hother Hrow) as Hcall.
    apply wp_intro in Hcall
      as (r & self1 & evs1 & E & Hwf1 & Hd1 & Hother1 & Hreq1).
    destruct (IH self1 api Hwf1 Hapi Hd1 Hother1 Hrows)
      as (rs & self2 & evs2 & E2 & Hreq2 & Hd2 & Hother2).
    exists (r :: rs), self2, (evs1 ++ evs2). cbn [run]. rewrite E, E2.
    split; [reflexivity |]. split; [| auto].
    rewrite requests_app, Hreq1, Hreq2. reflexivity.
Qed.

Lemma disabled_service_stays_out_witness :
  ∃ rs self' evs,
    run (replicate 20 ("SW1A 1AA", λ _ _, NoResult))
      (put_api_disabled 0 true (put_failure_count 0 5 __init__))
    = inr (rs, self', evs) ∧
    requests evs = replicate 20 1 ∧
    api_disabled self' !! 0 = Some true ∧
    api_disabled self' !! 1 = Some false.
Proof.
  apply (disabled_service_stays_out
           (replicate 20 ("SW1A 1AA", λ _ _, NoResult))
           (put_api_disabled 0 true (put_failure_count 0 5 __init__)) 0).
  - apply well_formed_postcodes_io_disabled.
  - left; reflexivity.
  - reflexivity.
  - reflexivity.
  - repeat constructor; discriminate.
Defined.
